(** * superform-av: the capture screen of [src/App.tsx]

    A shallow embedding of the screen component [App]: its four pieces of
    state, the handlers [requestPermissions], [takePicture],
    [getCurrentLocation] and [submitForm], and the JavaScript string and
    number operations they rely on.  Handlers are written in a small monad
    that records the calls made to the device, the network and the alert
    dialog, and carries the completion (fulfilled or rejected) of the
    handler's promise. *)

From Stdlib Require Import List Bool NArith ZArith PArith Ascii String Lia.
From Stdlib Require DecimalPos.
Import ListNotations.

Set Implicit Arguments.

(** ** JavaScript strings

    A JavaScript string is a sequence of UTF-16 code units. *)

Module JSString.

Definition t := list N.

(** Literals are written as Rocq strings (UTF-8 bytes) and decoded. *)

Definition emit_code_point (cp : N) : t :=
  if (cp <? 65536)%N then [cp]
  else [(55296 + (cp - 65536) / 1024)%N; (56320 + (cp - 65536) mod 1024)%N].

Fixpoint utf8_go (acc : N) (need : nat) (bs : list N) : t :=
  match bs with
  | [] => []
  | b :: bs' =>
      match need with
      | S k =>
          let acc' := (acc * 64 + b mod 64)%N in
          match k with
          | O => emit_code_point acc' ++ utf8_go 0 0 bs'
          | S _ => utf8_go acc' k bs'
          end
      | O =>
          if (b <? 128)%N then b :: utf8_go 0 0 bs'
          else if (b <? 224)%N then utf8_go (b mod 32) 1 bs'
          else if (b <? 240)%N then utf8_go (b mod 16) 2 bs'
          else utf8_go (b mod 8) 3 bs'
      end
  end.

Definition js (s : string) : t :=
  utf8_go 0 0 (map N_of_ascii (list_ascii_of_string s)).

Definition eqb (a b : t) : bool :=
  if list_eq_dec N.eq_dec a b then true else false.

(** *** [String.prototype.trim]

    WhiteSpace and LineTerminator code points of ECMAScript: TAB, VT, FF,
    SP, NBSP, ZWNBSP, the Unicode space separators, LF, CR, LS and PS. *)

Definition isWhiteSpace (c : N) : bool :=
  match c with
  | 9 | 10 | 11 | 12 | 13 | 32 | 160 | 5760
  | 8192 | 8193 | 8194 | 8195 | 8196 | 8197 | 8198 | 8199 | 8200 | 8201 | 8202
  | 8232 | 8233 | 8239 | 8287 | 12288 | 65279 => true
  | _ => false
  end%N.

Fixpoint trimStart (s : t) : t :=
  match s with
  | [] => []
  | c :: s' => if isWhiteSpace c then trimStart s' else s
  end.

Definition trimEnd (s : t) : t := rev (trimStart (rev s)).

Definition trim (s : t) : t := trimEnd (trimStart s).

(** *** [String.prototype.split] with a separator of one code unit, as in
    [split('/')] and [split('.')].  The result is never empty: the empty
    string splits into one empty segment. *)

Fixpoint split (sep : N) (s : t) : list t :=
  match s with
  | [] => [[]]
  | c :: s' =>
      if (c =? sep)%N then [] :: split sep s'
      else match split sep s' with
           | seg :: rest => (c :: seg) :: rest
           | [] => [[c]]
           end
  end.

(** [Array.prototype.pop]: the last element, [undefined] on an empty array. *)

Fixpoint pop {A} (l : list A) : option A :=
  match l with
  | [] => None
  | [x] => Some x
  | _ :: l' => pop l'
  end.

(** *** [String.prototype.toLowerCase]

    Basic Latin and Latin-1 capitals move down by 32; U+0130 and U+212A are
    the two code points outside Latin-1 whose lower case lands in Basic
    Latin.  Other code units are kept: no capital outside Basic Latin has
    p, n or g as its lower case, which is all [submitForm] asks of the
    result. *)

Definition toLowerCaseUnit (c : N) : t :=
  (if (65 <=? c) && (c <=? 90) then [c + 32]
   else if (192 <=? c) && (c <=? 222) && negb (c =? 215) then [c + 32]
   else if c =? 304 then [105; 775]
   else if c =? 8490 then [107]
   else [c])%N.

Definition toLowerCase (s : t) : t := flat_map toLowerCaseUnit s.

End JSString.

Definition jsstring : Type := JSString.t.
Definition js : string -> jsstring := JSString.js.

(** ** JavaScript numbers

    A finite non-zero Number is kept as the decimal that Number::toString
    prints: its sign, the digits [s] of the shortest decimal that denotes it
    (so [s] does not end in 0) and the exponent [e], the value being
    [s * 10^e]. *)

Module JSNumber.

Inductive t :=
| NaN
| Infinity (negative : bool)
| Zero (negative : bool)
| Finite (negative : bool) (s : positive) (e : Z).

Fixpoint uint_units (d : Decimal.uint) : jsstring :=
  match d with
  | Decimal.Nil => []
  | Decimal.D0 d => 48 :: uint_units d
  | Decimal.D1 d => 49 :: uint_units d
  | Decimal.D2 d => 50 :: uint_units d
  | Decimal.D3 d => 51 :: uint_units d
  | Decimal.D4 d => 52 :: uint_units d
  | Decimal.D5 d => 53 :: uint_units d
  | Decimal.D6 d => 54 :: uint_units d
  | Decimal.D7 d => 55 :: uint_units d
  | Decimal.D8 d => 56 :: uint_units d
  | Decimal.D9 d => 57 :: uint_units d
  end%N.

Definition digits (s : positive) : jsstring := uint_units (Pos.to_uint s).

Definition digitsN (n : N) : jsstring := uint_units (N.to_uint n).

(** Steps 5 to 10 of Number::toString (radix 10), with [k] the number of
    digits of [s] and [n = e + k]. *)

Definition finiteToString (s : positive) (e : Z) : jsstring :=
  let ds := digits s in
  let k := Z.of_nat (List.length ds) in
  let n := (e + k)%Z in
  if ((k <=? n) && (n <=? 21))%Z then
    ds ++ repeat 48%N (Z.to_nat (n - k))
  else if ((0 <? n) && (n <=? 21))%Z then
    firstn (Z.to_nat n) ds ++ js "." ++ skipn (Z.to_nat n) ds
  else if ((-6 <? n) && (n <=? 0))%Z then
    js "0." ++ repeat 48%N (Z.to_nat (- n)) ++ ds
  else
    let ex := (if (n - 1 <? 0)%Z then js "-" else js "+")
                ++ digitsN (Z.abs_N (n - 1)) in
    match ds with
    | [] => []
    | [d] => d :: js "e" ++ ex
    | d :: rest => d :: js "." ++ rest ++ js "e" ++ ex
    end.

(** [String(x)] and the [${x}] of a template literal, for a Number. *)

Definition toString (x : t) : jsstring :=
  match x with
  | NaN => js "NaN"
  | Zero _ => js "0"
  | Infinity false => js "Infinity"
  | Infinity true => js "-Infinity"
  | Finite false s e => finiteToString s e
  | Finite true s e => js "-" ++ finiteToString s e
  end.

Definition toBoolean (x : t) : bool :=
  match x with
  | NaN | Zero _ => false
  | _ => true
  end.

(** The Number of an integer: trailing zeros of the digits move into the
    exponent.  [fuel] bounds the number of zeros removed; the
    binary size of the integer is enough. *)

Fixpoint strip10 (fuel : nat) (s : positive) (e : Z) : positive * Z :=
  match fuel with
  | O => (s, e)
  | S fuel' =>
      if (Z.pos s mod 10 =? 0)%Z
      then strip10 fuel' (Z.to_pos (Z.pos s / 10)) (e + 1)
      else (s, e)
  end.

Definition ofZ (z : Z) : t :=
  match z with
  | Z0 => Zero false
  | Zpos p => let (s, e) := strip10 (Pos.size_nat p) p 0 in Finite false s e
  | Zneg p => let (s, e) := strip10 (Pos.size_nat p) p 0 in Finite true s e
  end.

End JSNumber.

Definition Number : Type := JSNumber.t.

(** ** JSON values, as [response.json()] produces them *)

Module JSON.

#[warnings="-register-all"] Inductive t :=
| Null
| Bool (b : bool)
| Num (x : Number)
| Str (s : jsstring)
| Arr (xs : list t)
| Obj (fields : list (jsstring * t)).

(** The own property [key] of a parsed object; a key that is repeated in
    the text keeps its last value. *)

Fixpoint getOwn (fields : list (jsstring * t)) (key : jsstring) : option t :=
  match fields with
  | [] => None
  | (k, v) :: rest =>
      match getOwn rest key with
      | Some v' => Some v'
      | None => if JSString.eqb k key then Some v else None
      end
  end.

(** [v?.message]: [undefined] ([None]) on [null]; strings, numbers,
    booleans and arrays have no property of that name. *)

Definition optMessage (v : t) : option t :=
  match v with
  | Obj fields => getOwn fields (js "message")
  | _ => None
  end.

(** [x ?? d] *)

Definition nullish (x : option t) (d : t) : t :=
  match x with
  | None | Some Null => d
  | Some v => v
  end.

(** ToString, which [new Error(m)] applies to its argument; [None] is the
    TypeError of a value that has no string.  A parsed object prints as
    [[object Object]] through the [toString] it inherits; when it has a
    key [toString] of its own, that value is not callable, neither
    [toString] nor [valueOf] gives a primitive, and the conversion throws.
    An array joins the strings of its elements with commas, [null]
    elements printing as empty, and throws when one of them does. *)

Fixpoint ToString (v : t) : option jsstring :=
  match v with
  | Null => Some (js "null")
  | Bool true => Some (js "true")
  | Bool false => Some (js "false")
  | Num x => Some (JSNumber.toString x)
  | Str s => Some s
  | Arr xs =>
      (fix join (l : list t) : option jsstring :=
         match l with
         | [] => Some []
         | x :: rest =>
             match (match x with Null => Some [] | _ => ToString x end) with
             | None => None
             | Some first =>
                 match rest with
                 | [] => Some first
                 | _ :: _ =>
                     match join rest with
                     | None => None
                     | Some others => Some (first ++ js "," ++ others)
                     end
                 end
             end
         end) xs
  | Obj fields =>
      match getOwn fields (js "toString") with
      | Some _ => None
      | None => Some (js "[object Object]")
      end
  end.

(** ToBoolean, for [if (jsonResponse)]. *)

Definition toBoolean (v : t) : bool :=
  match v with
  | Null => false
  | Bool b => b
  | Num x => JSNumber.toBoolean x
  | Str [] => false
  | Str (_ :: _) => true
  | Arr _ | Obj _ => true
  end.

End JSON.

(** ** Data model *)

Record Coords := { latitude : Number; longitude : Number }.

Record LocationObject := { coords : Coords; timestamp : Number }.

(** The four [useState] cells of [App]. *)

Record State := {
  imageUri : option jsstring;
  description : jsstring;
  location : option LocationObject;
  isSubmitting : bool
}.

Definition initialState : State :=
  {| imageUri := None; description := []; location := None;
     isSubmitting := false |}.

Module SuperForm.

(** Modelled from the spec: the interface [SuperForm] of
    [./models/superForm], whose declaration is not among the sources.  The
    submission payload is "image reference, trimmed description (omitted if
    empty), latitude, longitude"; the field names are those of the object
    literal [superFormPayload] in [submitForm]. *)
Record t := {
  foto : jsstring;
  description : option jsstring;
  lat : Number;
  lng : Number
}.

End SuperForm.

(** [ImagePickerResult] of expo-image-picker: cancelled (with [assets]
    null), or not cancelled with an array of assets. *)

Record ImagePickerAsset := { uri : jsstring }.

Inductive ImagePickerResult :=
| Canceled
| Picked (assets : list ImagePickerAsset).

Inductive PermissionStatus := granted | denied | undetermined.

(** What is thrown, as the [catch] clause of [submitForm] tells it apart:
    an instance of [Error], with its message, or something else. *)

Inductive Thrown :=
| ErrorObject (message : jsstring)
| NonError.

(** A settled promise. *)

Inductive Settled (A : Type) :=
| Fulfilled (a : A)
| Rejected (e : Thrown).

Arguments Fulfilled {A} a.
Arguments Rejected {A} e.

(** A fetch [Response]; [json] is what [response.json()] settles to.  [ok]
    holds exactly for the statuses 200 to 299. *)

Record Response := { status : N; json : Settled JSON.t }.

Definition ok (r : Response) : bool :=
  ((200 <=? status r) && (status r <=? 299))%N.

(** ** Effects *)

Inductive Setter :=
| setImageUri (v : option jsstring)
| setDescription (v : jsstring)
| setLocation (v : option LocationObject)
| setIsSubmitting (v : bool).

(** A button of an alert; its handler is a sequence of setter calls.  An
    alert raised without a button list ([buttons = []]) gets the default
    button of the platform, which has no handler. *)

Record AlertButton := { text : jsstring; onPress : list Setter }.

Inductive FormDataValue :=
| TextPart (value : jsstring)
| FilePart (file_uri file_name file_type : jsstring).

Definition FormData : Type := list (jsstring * FormDataValue).

Inductive LogArg :=
| LogPayload (p : SuperForm.t)
| LogJSON (v : JSON.t).

Inductive Event :=
| SetState (a : Setter)
| Alert (title message : jsstring) (buttons : list AlertButton)
| RequestCameraPermissions
| RequestMediaLibraryPermissions
| RequestForegroundPermissions
| LaunchCamera
| GetCurrentPosition
| Fetch (endpoint method : jsstring) (body : FormData)
| ResponseJson
| ConsoleLog (label : jsstring) (arg : LogArg).

(** The calls whose promise the caller awaits: the caller is suspended
    there. *)

Definition suspends (ev : Event) : bool :=
  match ev with
  | RequestCameraPermissions | RequestMediaLibraryPermissions
  | RequestForegroundPermissions | LaunchCamera | GetCurrentPosition
  | Fetch _ _ _ | ResponseJson => true
  | _ => false
  end.

(** One run of an async function: the events up to the settlement of its
    promise, the events of the tasks it started without awaiting them, and
    the settlement. *)

Record Run (A : Type) := {
  trace : list Event;
  background : list Event;
  result : Settled A
}.

Arguments trace {A} r.
Arguments background {A} r.
Arguments result {A} r.

Definition ret {A} (a : A) : Run A :=
  {| trace := []; background := []; result := Fulfilled a |}.

Definition throw {A} (e : Thrown) : Run A :=
  {| trace := []; background := []; result := Rejected e |}.

Definition bind {A B} (m : Run A) (f : A -> Run B) : Run B :=
  match result m with
  | Fulfilled a =>
      let r := f a in
      {| trace := trace m ++ trace r;
         background := background m ++ background r;
         result := result r |}
  | Rejected e =>
      {| trace := trace m; background := background m; result := Rejected e |}
  end.

Declare Scope run_scope.
Delimit Scope run_scope with run.
Notation "x <- m ;; k" := (bind m (fun x => k))
  (at level 61, m at next level, right associativity) : run_scope.
Notation "m ;; k" := (bind m (fun _ => k))
  (at level 61, right associativity) : run_scope.
Open Scope run_scope.

Definition emit (ev : Event) : Run unit :=
  {| trace := [ev]; background := []; result := Fulfilled tt |}.

(** [await api(...)], the environment settling the promise with [o]. *)

Definition call {A} (ev : Event) (o : Settled A) : Run A :=
  {| trace := [ev]; background := []; result := o |}.

Definition try_catch {A} (body : Run A) (handler : Thrown -> Run A) : Run A :=
  match result body with
  | Fulfilled a => body
  | Rejected e =>
      let h := handler e in
      {| trace := trace body ++ trace h;
         background := background body ++ background h;
         result := result h |}
  end.

Definition try_finally {A} (body : Run A) (finalizer : Run unit) : Run A :=
  {| trace := trace body ++ trace finalizer;
     background := background body ++ background finalizer;
     result := match result finalizer with
               | Fulfilled _ => result body
               | Rejected e => Rejected e
               end |}.

(** A call of an async function that is not awaited: it runs up to its
    first suspension, the caller goes on, and the rest of it runs later.
    Its settlement is dropped. *)

Fixpoint upToSuspension (t : list Event) : list Event * list Event :=
  match t with
  | [] => ([], [])
  | ev :: t' =>
      if suspends ev then ([ev], t')
      else let (before, later) := upToSuspension t' in (ev :: before, later)
  end.

Definition spawn {A} (m : Run A) : Run unit :=
  let (before, later) := upToSuspension (trace m) in
  {| trace := before; background := later ++ background m;
     result := Fulfilled tt |}.

Definition setState (a : Setter) : Run unit := emit (SetState a).

Definition Alert_alert (title message : jsstring) (buttons : list AlertButton)
  : Run unit := emit (Alert title message buttons).

Definition console_log (label : jsstring) (arg : LogArg) : Run unit :=
  emit (ConsoleLog label arg).

(** The state that results from the setter calls of a run. *)

Definition applySetter (s : State) (a : Setter) : State :=
  match a with
  | setImageUri v =>
      {| imageUri := v; description := description s;
         location := location s; isSubmitting := isSubmitting s |}
  | setDescription v =>
      {| imageUri := imageUri s; description := v;
         location := location s; isSubmitting := isSubmitting s |}
  | setLocation v =>
      {| imageUri := imageUri s; description := description s;
         location := v; isSubmitting := isSubmitting s |}
  | setIsSubmitting v =>
      {| imageUri := imageUri s; description := description s;
         location := location s; isSubmitting := v |}
  end.

Definition applyEvent (s : State) (ev : Event) : State :=
  match ev with
  | SetState a => applySetter s a
  | _ => s
  end.

Definition stateAfter (s : State) (t : list Event) : State :=
  fold_left applyEvent t s.

(** Pressing a button of an alert runs its handler. *)

Definition press (b : AlertButton) (s : State) : State :=
  fold_left applySetter (onPress b) s.

(** ** The component [App] *)

Definition nl : jsstring := [10%N].

(** [!v] is false exactly for a non-empty string: [truthy] narrows
    [string | null] to the string when it is one. *)

Definition truthy (v : option jsstring) : option jsstring :=
  match v with
  | Some (c :: s) => Some (c :: s)
  | _ => None
  end.

Definition toBoolean (v : option jsstring) : bool :=
  match truthy v with
  | Some _ => true
  | None => false
  end.

(** What the environment answers during one [submitForm]: the position
    request, the clock, and the POST with the body of its response; and
    the message the engine gives to the TypeError of a conversion to
    string that fails. *)

Record SubmitEnv := {
  position : Settled LocationObject;
  now : Number;
  response : Settled Response;
  typeErrorMessage : jsstring
}.

Section App.

(** [CREATE_SUPERFORM_ENDPOINT] of [./constants/endpoints], the fixed
    endpoint; its value is not among the sources. *)
Variable CREATE_SUPERFORM_ENDPOINT : jsstring.

(** The values of the state cells in the render whose handlers run: the
    handlers are closures over them. *)
Variable st : State.

Definition requestPermissions
    (camera mediaLibrary foreground : Settled PermissionStatus) : Run unit :=
  cameraPermission <- call RequestCameraPermissions camera ;;
  mediaLibraryPermission <- call RequestMediaLibraryPermissions mediaLibrary ;;
  locationPermission <- call RequestForegroundPermissions foreground ;;
  match cameraPermission, mediaLibraryPermission, locationPermission with
  | granted, granted, granted => ret tt
  | _, _, _ =>
      Alert_alert (js "Permisos requeridos")
        (js "Esta aplicación necesita permisos de cámara y ubicación para funcionar correctamente.")
        []
  end.

Definition getCurrentLocation (pos : Settled LocationObject)
  : Run (option LocationObject) :=
  try_catch
    (currentLocation <- call GetCurrentPosition pos ;;
     setState (setLocation (Some currentLocation)) ;;
     ret (Some currentLocation))
    (fun _ =>
       Alert_alert (js "Error") (js "No se pudo obtener la ubicación") [] ;;
       ret None).

Definition takePicture (camera : Settled ImagePickerResult)
    (pos : Settled LocationObject) : Run unit :=
  try_catch
    (result <- call LaunchCamera camera ;;
     match result with
     | Picked (asset :: _) =>
         setState (setImageUri (Some (uri asset))) ;;
         spawn (getCurrentLocation pos)
     | _ => ret tt
     end)
    (fun _ => Alert_alert (js "Error") (js "No se pudo tomar la foto") []).

(** The values [submitForm] computes between the location check and the
    [try]. *)

Definition fileNameOf (imageUri : jsstring) (now : Number) : jsstring :=
  match JSString.pop (JSString.split 47 imageUri) with
  | Some name => name
  | None => js "foto-" ++ JSNumber.toString now ++ js ".jpg"
  end.

Definition fileExtensionOf (fileName : jsstring) : option jsstring :=
  option_map JSString.toLowerCase (JSString.pop (JSString.split 46 fileName)).

Definition mimeTypeOf (fileName : jsstring) : jsstring :=
  match fileExtensionOf fileName with
  | Some ext => if JSString.eqb ext (js "png") then js "image/png"
                else js "image/jpeg"
  | None => js "image/jpeg"
  end.

(** [s || d] on strings. *)

Definition orElse (s d : jsstring) : jsstring :=
  match s with
  | [] => d
  | _ :: _ => s
  end.

Definition superFormPayloadOf (imageUri trimmedDescription : jsstring)
    (currentLocation : LocationObject) : SuperForm.t :=
  {| SuperForm.foto := imageUri;
     SuperForm.description :=
       match trimmedDescription with [] => None | _ :: _ => Some trimmedDescription end;
     SuperForm.lat := latitude (coords currentLocation);
     SuperForm.lng := longitude (coords currentLocation) |}.

Definition bodyOf (imageUri fileName mimeType trimmedDescription : jsstring)
    (superFormPayload : SuperForm.t) : FormData :=
  [ (js "foto", FilePart imageUri fileName mimeType);
    (js "lat", TextPart (JSNumber.toString (SuperForm.lat superFormPayload)));
    (js "lng", TextPart (JSNumber.toString (SuperForm.lng superFormPayload))) ]
  ++ match trimmedDescription with
     | [] => []
     | _ :: _ => [ (js "description", TextPart trimmedDescription) ]
     end.

Definition summaryOf (imageUri : option jsstring) (trimmedDescription : jsstring)
    (superFormPayload : SuperForm.t) : jsstring :=
  js "Foto: "
    ++ (match truthy imageUri with
        | Some _ => js "Incluida"
        | None => js "No incluida"
        end)
    ++ nl ++ js "Descripción: " ++ orElse trimmedDescription (js "Sin descripción")
    ++ nl ++ js "Latitud: " ++ JSNumber.toString (SuperForm.lat superFormPayload)
    ++ nl ++ js "Longitud: " ++ JSNumber.toString (SuperForm.lng superFormPayload).

(** [response.json().catch(() => null)] *)

Definition parseJson (response : Response) : Run JSON.t :=
  try_catch (call ResponseJson (json response)) (fun _ => ret JSON.Null).

Definition okButton : AlertButton :=
  {| text := js "OK";
     onPress := [ setImageUri None; setDescription []; setLocation None ] |}.

(** The [try] block of [submitForm] and its [catch] clause.
    [new Error(backendMessage)] takes the string of its argument as the
    message; when the argument has no string the TypeError of the
    conversion is what is thrown. *)

Definition tryBlock (env : SubmitEnv) (trimmedDescription : jsstring)
    (superFormPayload : SuperForm.t) (body : FormData) : Run unit :=
  setState (setIsSubmitting true) ;;
  response <-
    call (Fetch CREATE_SUPERFORM_ENDPOINT (js "POST") body) (response env) ;;
  jsonResponse <- parseJson response ;;
  if negb (ok response) then
    let backendMessage :=
      JSON.nullish (JSON.optMessage jsonResponse)
        (JSON.Str (js "Ocurrió un error al enviar el formulario."))
    in
    match JSON.ToString backendMessage with
    | Some message => throw (ErrorObject message)
    | None => throw (ErrorObject (typeErrorMessage env))
    end
  else
    Alert_alert (js "Formulario enviado")
      (summaryOf (imageUri st) trimmedDescription superFormPayload)
      [ okButton ] ;;
    console_log (js "Datos enviados:") (LogPayload superFormPayload) ;;
    if JSON.toBoolean jsonResponse
    then console_log (js "Respuesta backend:") (LogJSON jsonResponse)
    else ret tt.

Definition catchBlock (error : Thrown) : Run unit :=
  let message :=
    match error with
    | ErrorObject m => m
    | NonError => js "No se pudo enviar el formulario."
    end in
  Alert_alert (js "Error") message [].

Definition submitForm (env : SubmitEnv) : Run unit :=
  match truthy (imageUri st) with
  | None =>
      Alert_alert (js "Error")
        (js "Debes tomar una foto antes de enviar el formulario") []
  | Some imageUri' =>
      currentLocation' <- getCurrentLocation (position env) ;;
      match currentLocation' with
      | None =>
          Alert_alert (js "Error") (js "No se pudo obtener la ubicación") []
      | Some currentLocation =>
          let trimmedDescription := JSString.trim (description st) in
          let fileName := fileNameOf imageUri' (now env) in
          let mimeType := mimeTypeOf fileName in
          let superFormPayload :=
            superFormPayloadOf imageUri' trimmedDescription currentLocation in
          let body :=
            bodyOf imageUri' fileName mimeType trimmedDescription
              superFormPayload in
          try_finally
            (try_catch
               (tryBlock env trimmedDescription superFormPayload body)
               catchBlock)
            (setState (setIsSubmitting false))
      end
  end.

(** The submit button: [disabled={!imageUri || isSubmitting}], and
    [onPress={submitForm}]; a disabled button ignores the press. *)

Definition submitDisabled : bool :=
  negb (toBoolean (imageUri st)) || isSubmitting st.

Definition pressSubmit (env : SubmitEnv) : Run unit :=
  if submitDisabled then ret tt else submitForm env.

End App.

(** ** Reading a run *)

Definition isFetch (ev : Event) : bool :=
  match ev with Fetch _ _ _ => true | _ => false end.

Definition isAlert (ev : Event) : bool :=
  match ev with Alert _ _ _ => true | _ => false end.

Definition events {A} (r : Run A) : list Event := trace r ++ background r.

Definition alerts {A} (r : Run A) : list Event := filter isAlert (events r).

Definition fetches {A} (r : Run A) : list Event := filter isFetch (events r).

(** The strings that lower-case to [png]: its eight spellings in upper and
    lower case. *)

Definition pngIgnoringCase (ext : jsstring) : Prop :=
  exists a b c,
    ext = [a; b; c]
    /\ (a = 112 \/ a = 80)%N /\ (b = 110 \/ b = 78)%N /\ (c = 103 \/ c = 71)%N.


(** The extension of a file name, in the words of the specification: what
    follows the last dot of a name that has a dot; a name without a dot
    has none. *)

Definition extensionOf (fileName : jsstring) : option jsstring :=
  if existsb (N.eqb 46) fileName
  then JSString.pop (JSString.split 46 fileName)
  else None.

(** What a settled POST leaves in the trace of [submitForm], between the
    [fetch] and the [finally] block. *)

Definition jsonResponseOf (r : Response) : JSON.t :=
  match json r with
  | Fulfilled v => v
  | Rejected _ => JSON.Null
  end.

Definition backendMessageOf (typeError : jsstring) (r : Response) : jsstring :=
  match JSON.ToString
          (JSON.nullish (JSON.optMessage (jsonResponseOf r))
             (JSON.Str (js "Ocurrió un error al enviar el formulario.")))
  with
  | Some message => message
  | None => typeError
  end.

Definition caughtMessageOf (e : Thrown) : jsstring :=
  match e with
  | ErrorObject m => m
  | NonError => js "No se pudo enviar el formulario."
  end.

Definition payloadFor (st : State) (imageUri' : jsstring)
    (currentLocation : LocationObject) : SuperForm.t :=
  superFormPayloadOf imageUri' (JSString.trim (description st)) currentLocation.

Definition bodyFor (st : State) (env : SubmitEnv) (imageUri' : jsstring)
    (currentLocation : LocationObject) : FormData :=
  let fileName := fileNameOf imageUri' (now env) in
  bodyOf imageUri' fileName (mimeTypeOf fileName)
    (JSString.trim (description st)) (payloadFor st imageUri' currentLocation).

Definition successAlert (st : State) (imageUri' : jsstring)
    (currentLocation : LocationObject) : Event :=
  Alert (js "Formulario enviado")
    (summaryOf (imageUri st) (JSString.trim (description st))
       (payloadFor st imageUri' currentLocation))
    [ okButton ].

Definition afterFetch (typeError : jsstring) (st : State)
    (imageUri' : jsstring) (currentLocation : LocationObject)
    (resp : Settled Response) : list Event :=
  match resp with
  | Rejected e => [ Alert (js "Error") (caughtMessageOf e) [] ]
  | Fulfilled r =>
      ResponseJson ::
      if ok r then
        successAlert st imageUri' currentLocation
        :: ConsoleLog (js "Datos enviados:")
             (LogPayload (payloadFor st imageUri' currentLocation))
        :: (if JSON.toBoolean (jsonResponseOf r)
            then [ ConsoleLog (js "Respuesta backend:")
                     (LogJSON (jsonResponseOf r)) ]
            else [])
      else [ Alert (js "Error") (backendMessageOf typeError r) [] ]
  end.

Definition locationAlert : Event :=
  Alert (js "Error") (js "No se pudo obtener la ubicación") [].

Definition isSetIsSubmitting (ev : Event) : bool :=
  match ev with
  | SetState (setIsSubmitting _) => true
  | _ => false
  end.

(** ** The example of the specification

    A photo [photo.jpg], the description ["  Bridge view  "] and the
    location (40.0, -75.0). *)

Definition exampleEndpoint : jsstring := js "https://api.example.test/superform".

Definition exampleLocation : LocationObject :=
  {| coords := {| latitude := JSNumber.ofZ 40; longitude := JSNumber.ofZ (-75) |};
     timestamp := JSNumber.ofZ 1700000000000 |}.

Definition exampleState : State :=
  {| imageUri := Some (js "file:///cache/ImagePicker/photo.jpg");
     description := js "  Bridge view  ";
     location := None;
     isSubmitting := false |}.

Definition exampleResponse (status : N) (body : Settled JSON.t) : Response :=
  {| status := status; json := body |}.

Definition exampleEnv (pos : Settled LocationObject) (resp : Settled Response)
  : SubmitEnv :=
  {| position := pos; now := JSNumber.ofZ 1700000000500; response := resp;
     typeErrorMessage := js "Cannot convert object to primitive value" |}.

Definition errorBody (message : jsstring) : JSON.t :=
  JSON.Obj [ (js "message", JSON.Str message); (js "error", JSON.Bool true) ].

(** ** A session of the screen

    What the user does, one action after the other, each handler running
    to its end (with the tasks it started) before the next action.  The
    text input reports its new text to [setDescription]; an alert is modal,
    so the user dismisses it, with its button when it has one, before doing
    anything else. *)

Inductive Action :=
| Capture (camera : Settled ImagePickerResult) (pos : Settled LocationObject)
| ChangeText (text : jsstring)
| Submit (env : SubmitEnv).

(** The setter calls of the handlers of the alerts of a run, each alert
    being dismissed with its first button (no alert of [App] has more than
    one). *)

Definition dismissed (ev : Event) : list Event :=
  match ev with
  | Alert _ _ (b :: _) => map SetState (onPress b)
  | _ => []
  end.

Definition acknowledged (t : list Event) : list Event := flat_map dismissed t.

Definition step (endpoint : jsstring) (st : State) (a : Action) : list Event :=
  match a with
  | Capture camera pos => events (takePicture camera pos)
  | ChangeText text => [ SetState (setDescription text) ]
  | Submit env =>
      let t := events (pressSubmit endpoint st env) in
      t ++ acknowledged t
  end.

Fixpoint session (endpoint : jsstring) (st : State) (actions : list Action)
  : list Event :=
  match actions with
  | [] => []
  | a :: rest =>
      let t := step endpoint st a in
      t ++ session endpoint (stateAfter st t) rest
  end.

(** The code units of a plain decimal numeral: the digits, the point and
    the minus sign. *)


(** The decimal exponent [n] of Number::toString for a finite non-zero
    Number: the value lies between [10^(n-1)] and [10^n]. *)


(** ** The earlier revision of the component ([src/unnamed/part_000])

    The same screen before the network call was added: three state cells
    (no in-flight flag), the same [requestPermissions] and
    [getCurrentLocation], a [takePicture] without the location prefetch,
    and a [submitForm] that shows the summary at once. *)

Module Legacy.

Record SubmitEnv := {
  position : Settled LocationObject;
  isoTimestamp : jsstring
}.

Section App.

(** The state cells read by the handlers of a render. *)
Variable imageUri : option jsstring.
Variable description : jsstring.

Definition takePicture (camera : Settled ImagePickerResult) : Run unit :=
  try_catch
    (result <- call LaunchCamera camera ;;
     match result with
     | Picked (asset :: _) => setState (setImageUri (Some (uri asset)))
     | _ => ret tt
     end)
    (fun _ => Alert_alert (js "Error") (js "No se pudo tomar la foto") []).

(** The object literal [formData], as the value that is logged. *)

Definition formDataOf (imageUri' : jsstring) (currentLocation : LocationObject)
    (timestamp : jsstring) : JSON.t :=
  JSON.Obj
    [ (js "image", JSON.Str imageUri');
      (js "description", JSON.Str (JSString.trim description));
      (js "latitude", JSON.Num (latitude (coords currentLocation)));
      (js "longitude", JSON.Num (longitude (coords currentLocation)));
      (js "timestamp", JSON.Str timestamp) ].

Definition summaryOf (currentLocation : LocationObject) : jsstring :=
  js "Foto: "
    ++ (match truthy imageUri with
        | Some _ => js "Incluida"
        | None => js "No incluida"
        end)
    ++ nl ++ js "Descripción: " ++ orElse description (js "Sin descripción")
    ++ nl ++ js "Latitud: "
    ++ JSNumber.toString (latitude (coords currentLocation))
    ++ nl ++ js "Longitud: "
    ++ JSNumber.toString (longitude (coords currentLocation)).

Definition submitForm (env : SubmitEnv) : Run unit :=
  match truthy imageUri with
  | None =>
      Alert_alert (js "Error")
        (js "Debes tomar una foto antes de enviar el formulario") []
  | Some imageUri' =>
      currentLocation' <- getCurrentLocation (position env) ;;
      match currentLocation' with
      | None =>
          Alert_alert (js "Error") (js "No se pudo obtener la ubicación") []
      | Some currentLocation =>
          let formData :=
            formDataOf imageUri' currentLocation (isoTimestamp env) in
          Alert_alert (js "Formulario enviado")
            (summaryOf currentLocation) [ okButton ] ;;
          console_log (js "Datos del formulario:") (LogJSON formData)
      end
  end.

(** [disabled={!imageUri}] *)

Definition submitDisabled : bool := negb (toBoolean imageUri).

End App.

End Legacy.

(** A session of the example: the photo is taken, the description typed,
    and the form submitted with success. *)

Definition exampleSession : list Action :=
  [ Capture
      (Fulfilled (Picked [ {| uri := js "file:///cache/ImagePicker/photo.jpg" |} ]))
      (Fulfilled exampleLocation);
    ChangeText (js "  Bridge view  ");
    Submit (exampleEnv (Fulfilled exampleLocation)
              (Fulfilled (exampleResponse 200 (Fulfilled JSON.Null)))) ].

Definition exampleBody : FormData :=
  [ (js "foto",
     FilePart (js "file:///cache/ImagePicker/photo.jpg")
       (js "photo.jpg") (js "image/jpeg"));
    (js "lat", TextPart (js "40"));
    (js "lng", TextPart (js "-75"));
    (js "description", TextPart (js "Bridge view")) ].

Definition exampleLegacyEnv (pos : Settled LocationObject) : Legacy.SubmitEnv :=
  {| Legacy.position := pos;
     Legacy.isoTimestamp := js "2023-11-14T22:13:20.000Z" |}.
(** * Properties *)

(** ** Sample evaluations *)

Example trim_bridge :
  JSString.trim (js "  Bridge view  ") = js "Bridge view".
Proof. reflexivity. Qed.

Example accents :
  js "Ocurrió" = [79; 99; 117; 114; 114; 105; 243]%N.
Proof. reflexivity. Qed.

Example string_of_40 : JSNumber.toString (JSNumber.ofZ 40) = js "40".
Proof. vm_compute. reflexivity. Qed.

Example string_of_m75 : JSNumber.toString (JSNumber.ofZ (-75)) = js "-75".
Proof. vm_compute. reflexivity. Qed.

Example string_of_decimal :
  JSNumber.toString (JSNumber.Finite true 334567 (-4)) = js "-33.4567".
Proof. vm_compute. reflexivity. Qed.

Example string_of_small :
  JSNumber.toString (JSNumber.Finite false 15 (-8)) = js "1.5e-7".
Proof. vm_compute. reflexivity. Qed.

Example string_of_array :
  JSON.ToString
    (JSON.Arr [ JSON.Num (JSNumber.ofZ 1);
                JSON.Arr [ JSON.Num (JSNumber.ofZ 2); JSON.Null ];
                JSON.Str (js "a") ])
  = Some (js "1,2,,a").
Proof. vm_compute. reflexivity. Qed.

Example string_of_plain_object :
  JSON.ToString (JSON.Obj [ (js "code", JSON.Num (JSNumber.ofZ 7)) ])
  = Some (js "[object Object]").
Proof. vm_compute. reflexivity. Qed.

Example no_string_of_object_with_toString_key :
  JSON.ToString (JSON.Obj [ (js "toString", JSON.Str (js "x")) ]) = None
  /\ JSON.ToString
       (JSON.Arr [ JSON.Str (js "a");
                   JSON.Obj [ (js "toString", JSON.Null) ] ]) = None.
Proof. split; vm_compute; reflexivity. Qed.

(** ** Strings *)

Lemma JSString_eqb_eq (a b : jsstring) : JSString.eqb a b = true <-> a = b.
Proof.
  unfold JSString.eqb. destruct (list_eq_dec N.eq_dec a b); split; congruence.
Qed.

Lemma trimStart_whitespace (s : jsstring) :
  forallb JSString.isWhiteSpace s = true -> JSString.trimStart s = [].
Proof.
  induction s as [|c s IH]; simpl; [reflexivity|].
  intros H. apply andb_true_iff in H as [Hc Hs].
  rewrite Hc. auto.
Qed.

Lemma trimStart_nil_inv (s : jsstring) :
  JSString.trimStart s = [] -> forallb JSString.isWhiteSpace s = true.
Proof.
  induction s as [|c s IH]; simpl; [reflexivity|].
  destruct (JSString.isWhiteSpace c); simpl; [exact IH | discriminate].
Qed.

Lemma trimStart_suffix (s : jsstring) :
  exists p, s = p ++ JSString.trimStart s
            /\ forallb JSString.isWhiteSpace p = true.
Proof.
  induction s as [|c s [p [Hp Hw]]]; simpl.
  - exists []. auto.
  - destruct (JSString.isWhiteSpace c) eqn:Hc.
    + exists (c :: p). simpl. rewrite Hc, Hw. split; [congruence | reflexivity].
    + exists []. auto.
Qed.

(** A string trims to the empty string exactly when it consists of white
    space. *)

Lemma trim_nil_iff (s : jsstring) :
  JSString.trim s = [] <-> forallb JSString.isWhiteSpace s = true.
Proof.
  unfold JSString.trim, JSString.trimEnd. split.
  - intros H.
    assert (Hr : JSString.trimStart (rev (JSString.trimStart s)) = []).
    { rewrite <- (rev_involutive (JSString.trimStart _)), H. reflexivity. }
    apply trimStart_nil_inv in Hr.
    destruct (trimStart_suffix s) as [p [Hp Hw]].
    rewrite Hp, forallb_app, Hw. simpl.
    rewrite forallb_forall in Hr |- *.
    intros x Hx. apply Hr, in_rev. rewrite rev_involutive. exact Hx.
  - intros H. rewrite (trimStart_whitespace s H). reflexivity.
Qed.

Lemma pop_app_last {A} (l : list A) (x : A) : JSString.pop (l ++ [x]) = Some x.
Proof.
  induction l as [|y l IH]; [reflexivity|].
  simpl. rewrite IH. destruct (l ++ [x]) eqn:E; [|reflexivity].
  destruct l; discriminate.
Qed.

Lemma split_not_nil (sep : N) (s : jsstring) : JSString.split sep s <> [].
Proof.
  destruct s as [|c s]; simpl; [discriminate|].
  destruct (c =? sep)%N; [discriminate|].
  destruct (JSString.split sep s); discriminate.
Qed.

Lemma pop_cons {A} (x : A) (l : list A) :
  l <> [] -> JSString.pop (x :: l) = JSString.pop l.
Proof. destruct l; [congruence | reflexivity]. Qed.

(** The shape of a split: the last segment has no separator in it, and it
    is the whole string (when it is the only segment) or what follows a
    separator. *)

Lemma split_last (sep : N) (s : jsstring) :
  exists segs seg,
    JSString.split sep s = segs ++ [seg]
    /\ ~ In sep seg
    /\ ((segs = [] /\ s = seg) \/ (segs <> [] /\ exists p, s = p ++ sep :: seg)).
Proof.
  induction s as [|c s (segs & seg & Hs & Hno & Hdec)].
  - exists [], []. simpl. auto.
  - simpl. destruct (c =? sep)%N eqn:Hc.
    + apply N.eqb_eq in Hc. subst c.
      exists ([] :: segs), seg. rewrite Hs. repeat split; trivial.
      right. split; [discriminate|].
      destruct Hdec as [[_ ->] | [_ [p ->]]];
        [exists [] | exists (sep :: p)]; reflexivity.
    + apply N.eqb_neq in Hc. rewrite Hs.
      destruct Hdec as [[-> ->] | [Hne [p ->]]].
      * exists [], (c :: seg). simpl. repeat split; auto.
        intros [H | H]; [congruence | contradiction].
      * destruct segs as [|a segs]; [congruence|].
        exists ((c :: a) :: segs), seg. simpl. repeat split; trivial.
        right. split; [discriminate|]. exists (c :: p). reflexivity.
Qed.

Lemma pop_split (sep : N) (s : jsstring) :
  exists seg, JSString.pop (JSString.split sep s) = Some seg
              /\ ~ In sep seg
              /\ (s = seg \/ exists p, s = p ++ sep :: seg).
Proof.
  destruct (split_last sep s) as (segs & seg & Hs & Hno & Hdec).
  exists seg. rewrite Hs, pop_app_last. repeat split; trivial.
  destruct Hdec as [[_ H] | [_ H]]; auto.
Qed.

(** A string without the separator is its own last segment; after the
    last separator comes the last segment. *)

Lemma pop_split_whole (sep : N) (s : jsstring) :
  ~ In sep s -> JSString.pop (JSString.split sep s) = Some s.
Proof.
  intros Hno. destruct (pop_split sep s) as (seg & Hp & _ & [-> | [p ->]]).
  - exact Hp.
  - exfalso. apply Hno, in_or_app. right. left. reflexivity.
Qed.

Lemma last_separator_unique (sep : N) (p p' q q' : jsstring) :
  p ++ sep :: q = p' ++ sep :: q' -> ~ In sep q -> ~ In sep q' -> q = q'.
Proof.
  revert p'. induction p as [|c p IH]; intros [|c' p'] H Hq Hq'; simpl in H.
  - congruence.
  - exfalso. apply Hq. injection H as _ ->. apply in_or_app. right. left. reflexivity.
  - exfalso. apply Hq'. injection H as _ <-. apply in_or_app. right. left. reflexivity.
  - injection H as _ H. eauto.
Qed.

Lemma pop_split_after (sep : N) (p q : jsstring) :
  ~ In sep q -> JSString.pop (JSString.split sep (p ++ sep :: q)) = Some q.
Proof.
  intros Hq.
  destruct (pop_split sep (p ++ sep :: q)) as (seg & Hp & Hno & [H | [p' H]]).
  - exfalso. apply Hno. rewrite <- H. apply in_or_app. right. left. reflexivity.
  - assert (Heq : q = seg) by (eapply last_separator_unique; eauto).
    rewrite Hp, Heq. reflexivity.
Qed.

Lemma toLowerCaseUnit_shape (c : N) :
  JSString.toLowerCaseUnit c = [105; 775]%N
  \/ exists x,
       JSString.toLowerCaseUnit c = [x]
       /\ (x = c \/ (x = c + 32 /\ 65 <= c <= 222) \/ (x = 107 /\ c = 8490))%N.
Proof.
  unfold JSString.toLowerCaseUnit.
  destruct (N.leb_spec 65 c); destruct (N.leb_spec c 90); simpl;
    try (right; exists (c + 32)%N; split; [reflexivity | lia]).
  all: destruct (N.leb_spec 192 c); destruct (N.leb_spec c 222);
    destruct (N.eqb_spec c 215); simpl;
    try (right; exists (c + 32)%N; split; [reflexivity | lia]).
  all: destruct (N.eqb_spec c 304); [left; reflexivity|].
  all: destruct (N.eqb_spec c 8490);
    [right; exists 107%N; split; [reflexivity | lia]|].
  all: right; exists c; split; [reflexivity | lia].
Qed.

Lemma toLowerCaseUnit_letter (c x : N) (rest tail : jsstring) :
  JSString.toLowerCaseUnit c ++ rest = x :: tail ->
  (x = 112 \/ x = 110 \/ x = 103)%N ->
  (c = x \/ c + 32 = x)%N /\ rest = tail.
Proof.
  intros H Hx.
  destruct (toLowerCaseUnit_shape c) as [E | (y & E & Hy)]; rewrite E in H;
    simpl in H; injection H as H1 H2.
  - lia.
  - subst y. split; [lia | assumption].
Qed.

Lemma toLowerCaseUnit_nonempty (c : N) : JSString.toLowerCaseUnit c <> [].
Proof.
  destruct (toLowerCaseUnit_shape c) as [E | (y & E & _)]; rewrite E;
    discriminate.
Qed.

Lemma toLowerCase_png (ext : jsstring) :
  JSString.toLowerCase ext = js "png" <-> pngIgnoringCase ext.
Proof.
  change (js "png") with [112; 110; 103]%N. unfold JSString.toLowerCase. split.
  - intros H.
    destruct ext as [|a ext]; [discriminate|]. simpl in H.
    apply toLowerCaseUnit_letter in H as [Ha H]; [|lia].
    destruct ext as [|b ext]; [discriminate|]. simpl in H.
    apply toLowerCaseUnit_letter in H as [Hb H]; [|lia].
    destruct ext as [|c ext]; [discriminate|]. simpl in H.
    apply toLowerCaseUnit_letter in H as [Hc H]; [|lia].
    destruct ext as [|d ext].
    + exists a, b, c. repeat split; trivial; lia.
    + exfalso. simpl in H. apply app_eq_nil in H as [H _].
      exact (toLowerCaseUnit_nonempty _ H).
  - intros (a & b & c & -> & [-> | ->] & [-> | ->] & [-> | ->]); reflexivity.
Qed.

(** ** The monad of runs *)

Lemma bind_ret_l {A B} (a : A) (f : A -> Run B) : bind (ret a) f = f a.
Proof. unfold bind. simpl. destruct (f a). reflexivity. Qed.

Lemma bind_ret_r {A} (m : Run A) : bind m ret = m.
Proof.
  destruct m as [t b [a | e]]; unfold bind; simpl;
    rewrite ?app_nil_r; reflexivity.
Qed.

Lemma bind_assoc {A B C} (m : Run A) (f : A -> Run B) (g : B -> Run C) :
  bind (bind m f) g = bind m (fun a => bind (f a) g).
Proof.
  destruct m as [t b [a | e]]; unfold bind; simpl; [|reflexivity].
  destruct (f a) as [t' b' [a' | e']]; simpl; [|reflexivity].
  rewrite !app_assoc. reflexivity.
Qed.

(** A rejection skips the rest of the block, and [finally] runs its block
    on both completions. *)

Lemma bind_rejected {A B} (t b : list Event) (e : Thrown) (f : A -> Run B) :
  bind {| trace := t; background := b; result := Rejected e |} f
  = {| trace := t; background := b; result := Rejected e |}.
Proof. reflexivity. Qed.

Lemma try_finally_trace {A} (body : Run A) (finalizer : Run unit) :
  trace (try_finally body finalizer) = trace body ++ trace finalizer.
Proof. reflexivity. Qed.

(** A task that is not awaited leaves in the trace of its caller what it
    does up to its first awaited call, and nothing of its completion. *)

Lemma upToSuspension_app (t : list Event) :
  fst (upToSuspension t) ++ snd (upToSuspension t) = t.
Proof.
  induction t as [|ev t IH]; [reflexivity|].
  simpl. destruct (suspends ev); [reflexivity|].
  destruct (upToSuspension t). simpl in *. congruence.
Qed.

Lemma spawn_events {A} (m : Run A) : events (spawn m) = events m.
Proof.
  unfold spawn, events. pose proof (upToSuspension_app (trace m)) as H.
  destruct (upToSuspension (trace m)) as [before later]. simpl in *.
  rewrite app_assoc, H. reflexivity.
Qed.

Lemma spawn_fulfilled {A} (m : Run A) : result (spawn m) = Fulfilled tt.
Proof. unfold spawn. destruct (upToSuspension (trace m)). reflexivity. Qed.

(** ** The runs of [submitForm] *)

Section SubmitRuns.

Variable endpoint : jsstring.
Variable st : State.
Variable env : SubmitEnv.

Lemma truthy_toBoolean (v : option jsstring) (u : jsstring) :
  truthy v = Some u -> toBoolean v = true.
Proof. unfold toBoolean. intros ->. reflexivity. Qed.

Lemma truthy_Some (v : option jsstring) (u : jsstring) :
  truthy v = Some u -> v = Some u /\ u <> [].
Proof.
  destruct v as [[|c s]|]; simpl; try discriminate.
  intros H. injection H as <-. split; [reflexivity | discriminate].
Qed.

Lemma submitForm_no_image :
  truthy (imageUri st) = None ->
  submitForm endpoint st env =
  {| trace := [ Alert (js "Error")
                  (js "Debes tomar una foto antes de enviar el formulario") [] ];
     background := [];
     result := Fulfilled tt |}.
Proof. unfold submitForm. intros ->. reflexivity. Qed.

Lemma submitForm_no_location (u : jsstring) (e : Thrown) :
  truthy (imageUri st) = Some u ->
  position env = Rejected e ->
  submitForm endpoint st env =
  {| trace := [ GetCurrentPosition; locationAlert; locationAlert ];
     background := [];
     result := Fulfilled tt |}.
Proof.
  unfold submitForm. intros -> ->. reflexivity.
Qed.

Lemma getCurrentLocation_fulfilled (loc : LocationObject) :
  getCurrentLocation (Fulfilled loc) =
  {| trace := [ GetCurrentPosition; SetState (setLocation (Some loc)) ];
     background := [];
     result := Fulfilled (Some loc) |}.
Proof. reflexivity. Qed.

Lemma getCurrentLocation_rejected (e : Thrown) :
  getCurrentLocation (Rejected e) =
  {| trace := [ GetCurrentPosition; locationAlert ];
     background := [];
     result := Fulfilled None |}.
Proof. reflexivity. Qed.

Lemma tryBlock_caught (u : jsstring) (loc : LocationObject) :
  try_catch
    (tryBlock endpoint st env (JSString.trim (description st))
       (payloadFor st u loc) (bodyFor st env u loc))
    catchBlock =
  {| trace :=
       SetState (setIsSubmitting true)
       :: Fetch endpoint (js "POST") (bodyFor st env u loc)
       :: afterFetch (typeErrorMessage env) st u loc (response env);
     background := [];
     result := Fulfilled tt |}.
Proof.
  unfold tryBlock, afterFetch, backendMessageOf, jsonResponseOf, successAlert,
    caughtMessageOf, catchBlock, parseJson.
  destruct (response env) as [r | e].
  - unfold try_catch, bind, call, setState, emit, ret, throw, Alert_alert,
      console_log; cbn [trace background result app].
    destruct (json r) as [v | e']; cbn [trace background result app];
      destruct (ok r); cbn [negb trace background result app].
    + destruct (JSON.toBoolean v); cbn [trace background result app];
        reflexivity.
    + destruct (JSON.ToString
                  (JSON.nullish (JSON.optMessage v)
                     (JSON.Str
                        (js "Ocurrió un error al enviar el formulario."))));
        cbn [trace background result app]; reflexivity.
    + reflexivity.
    + cbn [JSON.optMessage JSON.nullish JSON.ToString
             trace background result app].
      reflexivity.
  - reflexivity.
Qed.

Lemma submitForm_submitted (u : jsstring) (loc : LocationObject) :
  truthy (imageUri st) = Some u ->
  position env = Fulfilled loc ->
  submitForm endpoint st env =
  {| trace :=
       GetCurrentPosition
       :: SetState (setLocation (Some loc))
       :: SetState (setIsSubmitting true)
       :: Fetch endpoint (js "POST") (bodyFor st env u loc)
       :: afterFetch (typeErrorMessage env) st u loc (response env)
          ++ [ SetState (setIsSubmitting false) ];
     background := [];
     result := Fulfilled tt |}.
Proof.
  unfold submitForm. intros -> ->.
  rewrite getCurrentLocation_fulfilled.
  unfold bind at 1. cbn [trace background result].
  pose proof (tryBlock_caught u loc) as H.
  unfold bodyFor, payloadFor in H. cbv zeta in H. rewrite H.
  reflexivity.
Qed.

End SubmitRuns.

(** ** Reading the trace *)

Lemma stateAfter_app (s : State) (t t' : list Event) :
  stateAfter s (t ++ t') = stateAfter (stateAfter s t) t'.
Proof. apply fold_left_app. Qed.

Lemma stateAfter_no_flag (t : list Event) (s : State) :
  filter isSetIsSubmitting t = [] ->
  isSubmitting (stateAfter s t) = isSubmitting s.
Proof.
  revert s. induction t as [|ev t IH]; intros s H; [reflexivity|].
  simpl in H. unfold stateAfter in *. simpl.
  destruct ev as [[] | | | | | | | | |]; simpl in H; try discriminate;
    rewrite (IH _ H); reflexivity.
Qed.

Lemma afterFetch_alerts (typeError : jsstring) (st : State) (u : jsstring)
    (loc : LocationObject) (resp : Settled Response) :
  filter isAlert (afterFetch typeError st u loc resp) =
  match resp with
  | Rejected e => [ Alert (js "Error") (caughtMessageOf e) [] ]
  | Fulfilled r =>
      if ok r then [ successAlert st u loc ]
      else [ Alert (js "Error") (backendMessageOf typeError r) [] ]
  end.
Proof.
  destruct resp as [r | e]; [|reflexivity].
  unfold afterFetch. destruct (ok r); [|reflexivity].
  destruct (JSON.toBoolean (jsonResponseOf r)); reflexivity.
Qed.

Lemma afterFetch_fetches (typeError : jsstring) (st : State) (u : jsstring)
    (loc : LocationObject) (resp : Settled Response) :
  filter isFetch (afterFetch typeError st u loc resp) = [].
Proof.
  destruct resp as [r | e]; [|reflexivity].
  unfold afterFetch. destruct (ok r); [|reflexivity].
  destruct (JSON.toBoolean (jsonResponseOf r)); reflexivity.
Qed.

Lemma afterFetch_no_flag (typeError : jsstring) (st : State) (u : jsstring)
    (loc : LocationObject) (resp : Settled Response) :
  filter isSetIsSubmitting (afterFetch typeError st u loc resp) = [].
Proof.
  destruct resp as [r | e]; [|reflexivity].
  unfold afterFetch. destruct (ok r); [|reflexivity].
  destruct (JSON.toBoolean (jsonResponseOf r)); reflexivity.
Qed.

(** Every run of [submitForm] is one of three: no image, no location, or
    a submission. *)

Lemma submitForm_cases (endpoint : jsstring) (st : State) (env : SubmitEnv) :
  (truthy (imageUri st) = None)
  \/ (exists u e, truthy (imageUri st) = Some u /\ position env = Rejected e)
  \/ (exists u loc, truthy (imageUri st) = Some u /\ position env = Fulfilled loc).
Proof.
  destruct (truthy (imageUri st)) as [u|]; [|left; reflexivity].
  right. destruct (position env) as [loc | e]; [right | left]; eauto.
Qed.

Ltac submit_cases endpoint st env :=
  let u := fresh "u" in
  let e := fresh "e" in
  let loc := fresh "loc" in
  let Hu := fresh "Hu" in
  let Hp := fresh "Hp" in
  destruct (submitForm_cases endpoint st env)
    as [Hu | [(u & e & Hu & Hp) | (u & loc & Hu & Hp)]];
  [ rewrite (submitForm_no_image endpoint st env Hu)
  | rewrite (submitForm_no_location endpoint st env Hu Hp)
  | rewrite (submitForm_submitted endpoint st env Hu Hp) ].

Lemma submitted_clears_flag (endpoint : jsstring) (st : State)
    (env : SubmitEnv) (u : jsstring) (loc : LocationObject) :
  truthy (imageUri st) = Some u ->
  position env = Fulfilled loc ->
  forall s,
    isSubmitting (stateAfter s (events (submitForm endpoint st env))) = false.
Proof.
  intros Hu Hp s. rewrite (submitForm_submitted endpoint st env Hu Hp).
  unfold events. cbn [trace background]. rewrite app_nil_r.
  change (GetCurrentPosition :: ?a :: ?b :: ?c :: ?t ++ ?l)
    with ((GetCurrentPosition :: a :: b :: c :: t) ++ l).
  rewrite stateAfter_app. reflexivity.
Qed.

(** ** The claims *)

(** C1: no POST is made while the image reference is absent or a
    submission is in flight.  Called with [imageUri] null, [submitForm]
    shows the error alert and returns, with no [fetch] in its run; and the
    submit button is disabled whenever [imageUri] is null or
    [isSubmitting] is true, so that pressing it runs nothing. *)
Theorem no_submission_without_image_or_in_flight
    (endpoint : jsstring) (st : State) (env : SubmitEnv) :
  (imageUri st = None ->
   submitForm endpoint st env =
     {| trace := [ Alert (js "Error")
                     (js "Debes tomar una foto antes de enviar el formulario")
                     [] ];
        background := [];
        result := Fulfilled tt |}
   /\ fetches (submitForm endpoint st env) = [])
  /\ (imageUri st = None \/ isSubmitting st = true ->
      submitDisabled st = true
      /\ events (pressSubmit endpoint st env) = []).
Proof.
  split.
  - intros H.
    assert (Ht : truthy (imageUri st) = None) by (rewrite H; reflexivity).
    rewrite (submitForm_no_image endpoint st env Ht). split; reflexivity.
  - intros H.
    assert (Hd : submitDisabled st = true).
    { unfold submitDisabled. destruct H as [H | H]; rewrite H.
      - reflexivity.
      - apply orb_true_r. }
    split; [exact Hd|]. unfold pressSubmit. rewrite Hd. reflexivity.
Qed.

Lemma no_submission_without_image_or_in_flight_witness :
  fetches (submitForm exampleEndpoint initialState
             (exampleEnv (Fulfilled exampleLocation) (Rejected NonError))) = []
  /\ submitDisabled initialState = true.
Proof.
  destruct (no_submission_without_image_or_in_flight exampleEndpoint
              initialState
              (exampleEnv (Fulfilled exampleLocation) (Rejected NonError)))
    as [H1 H2].
  split.
  - apply H1. reflexivity.
  - apply H2. left. reflexivity.
Defined.

(** C2: a run of [submitForm] that sets the in-flight flag clears it: the
    last event of the run is [setIsSubmitting(false)] and the flag is false
    in the resulting state, whatever the POST does (2xx, another status, a
    rejection). *)
Theorem in_flight_flag_cleared
    (endpoint : jsstring) (st : State) (env : SubmitEnv) :
  In (SetState (setIsSubmitting true)) (events (submitForm endpoint st env)) ->
  (exists t, events (submitForm endpoint st env)
             = t ++ [ SetState (setIsSubmitting false) ])
  /\ (forall s,
        isSubmitting (stateAfter s (events (submitForm endpoint st env)))
        = false).
Proof.
  submit_cases endpoint st env; unfold events; cbn [trace background].
  - simpl. intros [H | []]. discriminate.
  - simpl. intros [H | [H | [H | []]]]; discriminate.
  - intros _. rewrite app_nil_r. split.
    + eexists
        (GetCurrentPosition :: SetState (setLocation (Some loc))
         :: SetState (setIsSubmitting true) :: Fetch _ _ _
         :: afterFetch _ _ _ _ _).
      reflexivity.
    + intros s.
      change (GetCurrentPosition :: ?a :: ?b :: ?c :: ?t ++ ?l)
        with ((GetCurrentPosition :: a :: b :: c :: t) ++ l).
      rewrite stateAfter_app. reflexivity.
Qed.

Lemma in_flight_flag_cleared_witness :
  isSubmitting
    (stateAfter exampleState
       (events (submitForm exampleEndpoint exampleState
                  (exampleEnv (Fulfilled exampleLocation)
                     (Rejected (ErrorObject (js "Network request failed")))))))
  = false.
Proof.
  apply (in_flight_flag_cleared exampleEndpoint exampleState
           (exampleEnv (Fulfilled exampleLocation)
              (Rejected (ErrorObject (js "Network request failed"))))).
  vm_compute. right. right. left. reflexivity.
Defined.

Section Submitted.

Variable endpoint : jsstring.
Variable st : State.
Variable env : SubmitEnv.
Variable u : jsstring.
Variable loc : LocationObject.
Hypothesis Hu : truthy (imageUri st) = Some u.
Hypothesis Hp : position env = Fulfilled loc.

Lemma submitted_alerts :
  alerts (submitForm endpoint st env) =
  match response env with
  | Rejected e => [ Alert (js "Error") (caughtMessageOf e) [] ]
  | Fulfilled r =>
      if ok r then [ successAlert st u loc ]
      else [ Alert (js "Error") (backendMessageOf (typeErrorMessage env) r) [] ]
  end.
Proof.
  rewrite (submitForm_submitted endpoint st env Hu Hp).
  unfold alerts, events. cbn [trace background]. rewrite app_nil_r.
  cbn [filter isAlert]. rewrite filter_app, afterFetch_alerts.
  cbn [filter isAlert]. apply app_nil_r.
Qed.

Lemma submitted_fetches :
  fetches (submitForm endpoint st env) =
  [ Fetch endpoint (js "POST") (bodyFor st env u loc) ].
Proof.
  rewrite (submitForm_submitted endpoint st env Hu Hp).
  unfold fetches, events. cbn [trace background]. rewrite app_nil_r.
  cbn [filter isFetch]. rewrite filter_app, afterFetch_fetches. reflexivity.
Qed.

Lemma submitted_result : result (submitForm endpoint st env) = Fulfilled tt.
Proof. rewrite (submitForm_submitted endpoint st env Hu Hp). reflexivity. Qed.

End Submitted.

Lemma ok_iff (r : Response) : ok r = true <-> (200 <= status r <= 299)%N.
Proof.
  unfold ok. rewrite andb_true_iff, !N.leb_le. reflexivity.
Qed.

Lemma not_ok_iff (r : Response) :
  ok r = false <-> (status r < 200 \/ 299 < status r)%N.
Proof.
  pose proof (ok_iff r) as H. destruct (ok r); split; intros H'.
  - discriminate.
  - destruct H as [H _]. specialize (H eq_refl). lia.
  - destruct (N.lt_ge_cases (status r) 200) as [|H1]; [left; assumption|].
    destruct (N.le_gt_cases (status r) 299) as [H2|]; [|right; assumption].
    destruct H as [_ H]. discriminate H. lia.
  - reflexivity.
Qed.

Lemma title_success_not_error : js "Formulario enviado" <> js "Error".
Proof. intros H. vm_compute in H. discriminate. Qed.

(** C3: a POST answered with a status outside 200..299 displays the
    [message] of the JSON body when it has one: a string [X] is displayed
    as it is, and a message of another kind as the string [new Error]
    makes of it (a boolean or a number as its text, an object as
    [[object Object]], an array as its joined elements), or, when it has
    no string, as the message of the TypeError that the conversion throws
    inside the [try].  A body that does not parse gives the payload null,
    nothing is thrown for it, and the generic message is displayed.
    Whether the run ends in the success alert or in an error alert depends
    on the status alone. *)
Theorem http_failure_message
    (endpoint : jsstring) (st : State) (env : SubmitEnv)
    (u : jsstring) (loc : LocationObject) (r : Response)
    (Hu : truthy (imageUri st) = Some u)
    (Hp : position env = Fulfilled loc)
    (Hr : response env = Fulfilled r) :
  ((status r < 200 \/ 299 < status r)%N ->
     (forall fields X,
        json r = Fulfilled (JSON.Obj fields) ->
        JSON.getOwn fields (js "message") = Some (JSON.Str X) ->
        alerts (submitForm endpoint st env) = [ Alert (js "Error") X [] ])
     /\ (forall fields v,
           json r = Fulfilled (JSON.Obj fields) ->
           JSON.getOwn fields (js "message") = Some v ->
           (forall b,
              v = JSON.Bool b ->
              alerts (submitForm endpoint st env)
              = [ Alert (js "Error") (if b then js "true" else js "false") [] ])
           /\ (forall x,
                 v = JSON.Num x ->
                 alerts (submitForm endpoint st env)
                 = [ Alert (js "Error") (JSNumber.toString x) [] ])
           /\ (forall inner,
                 v = JSON.Obj inner ->
                 alerts (submitForm endpoint st env)
                 = [ Alert (js "Error")
                       match JSON.getOwn inner (js "toString") with
                       | None => js "[object Object]"
                       | Some _ => typeErrorMessage env
                       end
                       [] ])
           /\ (forall xs,
                 v = JSON.Arr xs ->
                 alerts (submitForm endpoint st env)
                 = [ Alert (js "Error")
                       match JSON.ToString (JSON.Arr xs) with
                       | Some joined => joined
                       | None => typeErrorMessage env
                       end
                       [] ]))
     /\ (forall e,
           json r = Rejected e ->
           parseJson r
           = {| trace := [ ResponseJson ]; background := [];
                result := Fulfilled JSON.Null |}
           /\ alerts (submitForm endpoint st env)
              = [ Alert (js "Error")
                    (js "Ocurrió un error al enviar el formulario.") [] ]))
  /\ ((200 <= status r <= 299)%N <->
      alerts (submitForm endpoint st env) = [ successAlert st u loc ])
  /\ ((status r < 200 \/ 299 < status r)%N <->
      exists message,
        alerts (submitForm endpoint st env) = [ Alert (js "Error") message [] ])
  /\ result (submitForm endpoint st env) = Fulfilled tt.
Proof.
  rewrite (submitted_alerts endpoint st env Hu Hp), Hr.
  rewrite (submitted_result endpoint st env Hu Hp).
  split; [|split; [|split]].
  - intros Hs. apply not_ok_iff in Hs. rewrite Hs.
    unfold backendMessageOf, jsonResponseOf, parseJson.
    split; [|split].
    + intros fields X Hj Hm. rewrite Hj. cbn [JSON.optMessage].
      rewrite Hm. reflexivity.
    + intros fields v Hj Hm. rewrite Hj. cbn [JSON.optMessage]. rewrite Hm.
      split; [|split; [|split]].
      * intros b ->. destruct b; reflexivity.
      * intros x ->. reflexivity.
      * intros inner ->. cbn [JSON.nullish JSON.ToString].
        destruct (JSON.getOwn inner (js "toString")); reflexivity.
      * intros xs ->. reflexivity.
    + intros e Hj. rewrite Hj. split; reflexivity.
  - rewrite <- ok_iff. unfold successAlert.
    destruct (ok r); split; intros H; try reflexivity.
    + discriminate H.
    + exfalso. apply title_success_not_error. congruence.
  - rewrite <- not_ok_iff. unfold successAlert.
    destruct (ok r); split; intros H; try reflexivity.
    + discriminate H.
    + destruct H as [m H]. exfalso. apply title_success_not_error.
      congruence.
    + eauto.
  - reflexivity.
Qed.

Lemma http_failure_message_witness :
  alerts (submitForm exampleEndpoint exampleState
            (exampleEnv (Fulfilled exampleLocation)
               (Fulfilled (exampleResponse 500 (Fulfilled (errorBody (js "X")))))))
  = [ Alert (js "Error") (js "X") [] ].
Proof.
  assert (Hu : truthy (imageUri exampleState)
               = Some (js "file:///cache/ImagePicker/photo.jpg"))
    by (vm_compute; reflexivity).
  destruct (http_failure_message exampleEndpoint exampleState
              (exampleEnv (Fulfilled exampleLocation)
                 (Fulfilled (exampleResponse 500 (Fulfilled (errorBody (js "X"))))))
              Hu eq_refl eq_refl) as [H _].
  destruct H as [H _].
  - right. vm_compute. reflexivity.
  - apply (H [ (js "message", JSON.Str (js "X")); (js "error", JSON.Bool true) ]
             (js "X")).
    + reflexivity.
    + vm_compute. reflexivity.
Defined.

(** C4: a submit attempt that reaches the construction of the body posts
    exactly the fields [foto] (the file part), [lat] and [lng] (the strings
    of the fetched latitude and longitude: 40.0 gives "40", -75.0 gives
    "-75"), followed by [description] exactly when the trimmed description
    is not empty; a description of white space only is left out. *)
Theorem multipart_body_fields
    (endpoint : jsstring) (st : State) (env : SubmitEnv)
    (u : jsstring) (loc : LocationObject)
    (Hu : truthy (imageUri st) = Some u)
    (Hp : position env = Fulfilled loc) :
  let d := JSString.trim (description st) in
  let foto :=
    (js "foto",
     FilePart u (fileNameOf u (now env)) (mimeTypeOf (fileNameOf u (now env)))) in
  let lat := (js "lat", TextPart (JSNumber.toString (latitude (coords loc)))) in
  let lng := (js "lng", TextPart (JSNumber.toString (longitude (coords loc)))) in
  imageUri st = Some u
  /\ (d <> [] ->
      fetches (submitForm endpoint st env)
      = [ Fetch endpoint (js "POST")
            [ foto; lat; lng; (js "description", TextPart d) ] ])
  /\ (d = [] ->
      fetches (submitForm endpoint st env)
      = [ Fetch endpoint (js "POST") [ foto; lat; lng ] ])
  /\ (forallb JSString.isWhiteSpace (description st) = true ->
      fetches (submitForm endpoint st env)
      = [ Fetch endpoint (js "POST") [ foto; lat; lng ] ])
  /\ JSNumber.toString (JSNumber.ofZ 40) = js "40"
  /\ JSNumber.toString (JSNumber.ofZ (-75)) = js "-75".
Proof.
  intros d foto lat lng.
  rewrite (submitted_fetches endpoint st env Hu Hp).
  unfold bodyFor, bodyOf, payloadFor, superFormPayloadOf.
  cbn [SuperForm.lat SuperForm.lng]. fold d foto lat lng.
  assert (Hempty : d = [] ->
                   [ Fetch endpoint (js "POST")
                       ([ foto; lat; lng ]
                        ++ match d with
                           | [] => []
                           | _ :: _ => [ (js "description", TextPart d) ]
                           end) ]
                   = [ Fetch endpoint (js "POST") [ foto; lat; lng ] ]).
  { intros ->. reflexivity. }
  split; [apply (truthy_Some _ Hu)|].
  split; [|split; [exact Hempty|split]].
  - intros Hd. destruct d; [congruence | reflexivity].
  - intros Hw. apply Hempty. apply trim_nil_iff. exact Hw.
  - split; vm_compute; reflexivity.
Qed.

Lemma multipart_body_fields_witness :
  fetches (submitForm exampleEndpoint exampleState
             (exampleEnv (Fulfilled exampleLocation) (Rejected NonError)))
  = [ Fetch exampleEndpoint (js "POST")
        [ (js "foto",
           FilePart (js "file:///cache/ImagePicker/photo.jpg")
             (js "photo.jpg") (js "image/jpeg"));
          (js "lat", TextPart (js "40"));
          (js "lng", TextPart (js "-75"));
          (js "description", TextPart (js "Bridge view")) ] ].
Proof.
  assert (Hu : truthy (imageUri exampleState)
               = Some (js "file:///cache/ImagePicker/photo.jpg"))
    by (vm_compute; reflexivity).
  destruct (multipart_body_fields exampleEndpoint exampleState
              (exampleEnv (Fulfilled exampleLocation) (Rejected NonError))
              Hu eq_refl) as (_ & H & _).
  rewrite H.
  - vm_compute. reflexivity.
  - vm_compute. discriminate.
Defined.

(** C5: with a photo, [submitForm] asks for the current position before
    anything else and does not read the stored location; when the position
    cannot be obtained the run ends there, with no [fetch]. *)
Theorem location_required_at_submit
    (endpoint : jsstring) (st : State) (env : SubmitEnv) (u : jsstring)
    (Hu : truthy (imageUri st) = Some u) :
  (exists t, trace (submitForm endpoint st env) = GetCurrentPosition :: t)
  /\ (forall l,
        submitForm endpoint (applySetter st (setLocation l)) env
        = submitForm endpoint st env)
  /\ (forall e,
        position env = Rejected e ->
        submitForm endpoint st env
        = {| trace := [ GetCurrentPosition; locationAlert; locationAlert ];
             background := [];
             result := Fulfilled tt |}
        /\ fetches (submitForm endpoint st env) = []).
Proof.
  split; [|split].
  - destruct (position env) as [loc | e] eqn:Hp.
    + rewrite (submitForm_submitted endpoint st env Hu Hp).
      cbn [trace]. eexists. reflexivity.
    + rewrite (submitForm_no_location endpoint st env Hu Hp).
      cbn [trace]. eexists. reflexivity.
  - intros l. reflexivity.
  - intros e Hp. rewrite (submitForm_no_location endpoint st env Hu Hp).
    split; reflexivity.
Qed.

Lemma location_required_at_submit_witness :
  fetches (submitForm exampleEndpoint exampleState
             (exampleEnv (Rejected (ErrorObject (js "Location unavailable")))
                (Fulfilled (exampleResponse 200 (Fulfilled JSON.Null)))))
  = [].
Proof.
  assert (Hu : truthy (imageUri exampleState)
               = Some (js "file:///cache/ImagePicker/photo.jpg"))
    by (vm_compute; reflexivity).
  destruct (location_required_at_submit exampleEndpoint exampleState
              (exampleEnv (Rejected (ErrorObject (js "Location unavailable")))
                 (Fulfilled (exampleResponse 200 (Fulfilled JSON.Null))))
              Hu) as (_ & _ & H).
  apply (H (ErrorObject (js "Location unavailable"))). reflexivity.
Defined.

(** C6, as the specification states it, does not hold: a successful
    submission does not reset the state by itself.  When [submitForm] has
    returned, the image reference, the description and the location are
    still set. *)
Lemma success_keeps_form_until_ok :
  ~ (forall (endpoint : jsstring) (st : State) (env : SubmitEnv)
            (u : jsstring) (loc : LocationObject) (r : Response),
       truthy (imageUri st) = Some u ->
       position env = Fulfilled loc ->
       response env = Fulfilled r ->
       (200 <= status r <= 299)%N ->
       let st' := stateAfter st (events (submitForm endpoint st env)) in
       imageUri st' = None /\ description st' = [] /\ location st' = None).
Proof.
  intros H.
  assert (Hu : truthy (imageUri exampleState)
               = Some (js "file:///cache/ImagePicker/photo.jpg"))
    by (vm_compute; reflexivity).
  assert (Hs : (200 <= status (exampleResponse 200 (Fulfilled JSON.Null)) <= 299)%N)
    by (simpl; lia).
  specialize (H exampleEndpoint exampleState
                (exampleEnv (Fulfilled exampleLocation)
                   (Fulfilled (exampleResponse 200 (Fulfilled JSON.Null))))
                _ exampleLocation _ Hu eq_refl eq_refl Hs).
  destruct H as (H & _). vm_compute in H. discriminate H.
Qed.

(** C6, amended: a POST answered with a status in 200..299 shows the
    confirmation summary, in an alert whose only button, OK, clears the
    image reference, the description and the stored location.  The
    submission itself clears nothing: when [submitForm] has returned the
    photo and the description are as before and the stored location is the
    position just obtained; it is the press on OK that resets them, and
    the state is then the initial one. *)
Theorem success_resets_form
    (endpoint : jsstring) (st : State) (env : SubmitEnv)
    (u : jsstring) (loc : LocationObject) (r : Response)
    (Hu : truthy (imageUri st) = Some u)
    (Hp : position env = Fulfilled loc)
    (Hr : response env = Fulfilled r)
    (Hs : (200 <= status r <= 299)%N) :
  alerts (submitForm endpoint st env)
  = [ Alert (js "Formulario enviado")
        (summaryOf (imageUri st) (JSString.trim (description st))
           (payloadFor st u loc))
        [ okButton ] ]
  /\ (forall s,
        imageUri (press okButton s) = None
        /\ description (press okButton s) = []
        /\ location (press okButton s) = None
        /\ isSubmitting (press okButton s) = isSubmitting s)
  /\ press okButton (stateAfter st (events (submitForm endpoint st env)))
     = initialState
  /\ stateAfter st (events (submitForm endpoint st env))
     = {| imageUri := imageUri st;
          description := description st;
          location := Some loc;
          isSubmitting := false |}.
Proof.
  apply ok_iff in Hs.
  assert (Hst : stateAfter st (events (submitForm endpoint st env))
                = {| imageUri := imageUri st;
                     description := description st;
                     location := Some loc;
                     isSubmitting := false |}).
  { rewrite (submitForm_submitted endpoint st env Hu Hp), Hr.
    unfold events, afterFetch. cbn [trace background]. rewrite Hs.
    destruct (JSON.toBoolean (jsonResponseOf r)); reflexivity. }
  split; [|split; [|split]].
  - rewrite (submitted_alerts endpoint st env Hu Hp), Hr, Hs. reflexivity.
  - intros s. repeat split.
  - rewrite Hst. reflexivity.
  - exact Hst.
Qed.

Lemma success_resets_form_witness :
  press okButton
    (stateAfter exampleState
       (events (submitForm exampleEndpoint exampleState
                  (exampleEnv (Fulfilled exampleLocation)
                     (Fulfilled (exampleResponse 201 (Fulfilled JSON.Null)))))))
  = initialState.
Proof.
  assert (Hu : truthy (imageUri exampleState)
               = Some (js "file:///cache/ImagePicker/photo.jpg"))
    by (vm_compute; reflexivity).
  assert (Hs : (200 <= status (exampleResponse 201 (Fulfilled JSON.Null)) <= 299)%N)
    by (simpl; lia).
  apply (success_resets_form exampleEndpoint exampleState
           (exampleEnv (Fulfilled exampleLocation)
              (Fulfilled (exampleResponse 201 (Fulfilled JSON.Null))))
           Hu eq_refl eq_refl Hs).
Defined.

(** C9: a capture that is cancelled, or that fails, makes no setter call,
    so the state is left as it was; the failure shows one error alert and
    the cancellation none.  A capture that succeeds stores the URI of the
    first asset and calls [getCurrentLocation] without awaiting it:
    [takePicture] is fulfilled as soon as the position is requested, and
    what the request brings (the location stored, or the alert of a
    failure) happens afterwards. *)
Theorem capture_flow (pos : Settled LocationObject) :
  takePicture (Fulfilled Canceled) pos
  = {| trace := [ LaunchCamera ]; background := []; result := Fulfilled tt |}
  /\ (forall e,
        takePicture (Rejected e) pos
        = {| trace := [ LaunchCamera;
                        Alert (js "Error") (js "No se pudo tomar la foto") [] ];
             background := [];
             result := Fulfilled tt |})
  /\ (forall s e,
        stateAfter s (events (takePicture (Fulfilled Canceled) pos)) = s
        /\ stateAfter s (events (takePicture (Rejected e) pos)) = s)
  /\ alerts (takePicture (Fulfilled Canceled) pos) = []
  /\ (forall asset rest,
        takePicture (Fulfilled (Picked (asset :: rest))) pos
        = {| trace := [ LaunchCamera;
                        SetState (setImageUri (Some (uri asset)));
                        GetCurrentPosition ];
             background :=
               match pos with
               | Fulfilled l => [ SetState (setLocation (Some l)) ]
               | Rejected _ => [ locationAlert ]
               end;
             result := Fulfilled tt |})
  /\ (forall s asset rest,
        imageUri
          (stateAfter s
             (events (takePicture (Fulfilled (Picked (asset :: rest))) pos)))
        = Some (uri asset)).
Proof.
  repeat split; try reflexivity.
  - destruct pos; reflexivity.
  - destruct pos; reflexivity.
Qed.

Lemma prefix_before_flag (a b : Event) (rest p q : list Event) :
  a :: b :: SetState (setIsSubmitting true) :: rest = p ++ q ->
  ~ In (SetState (setIsSubmitting true)) p ->
  p = [] \/ p = [a] \/ p = [a; b].
Proof.
  intros H Hp.
  destruct p as [|x [|y [|z p]]]; simpl in H; auto.
  - injection H as -> _. auto.
  - injection H as -> -> _. auto.
  - injection H as _ _ <- _. exfalso. apply Hp. simpl. auto.
Qed.

Lemma prefix_filter_nil {A} (f : A -> bool) (l p q : list A) :
  l = p ++ q -> filter f l = [] -> filter f p = [].
Proof.
  intros -> H. rewrite filter_app in H. apply app_eq_nil in H. tauto.
Qed.

(** C10: [setIsSubmitting(true)] is called only when the image is present
    and the position was obtained, and then after the position request and
    [setLocation]; a run that is rejected for a missing image or a missing
    location never calls [setIsSubmitting]; and up to the call the flag
    keeps the value it had when [submitForm] started. *)
Theorem in_flight_flag_set_after_checks
    (endpoint : jsstring) (st : State) (env : SubmitEnv) :
  (In (SetState (setIsSubmitting true)) (events (submitForm endpoint st env))
   <-> exists u loc,
         truthy (imageUri st) = Some u /\ position env = Fulfilled loc)
  /\ (forall u loc,
        truthy (imageUri st) = Some u ->
        position env = Fulfilled loc ->
        exists rest,
          events (submitForm endpoint st env)
          = GetCurrentPosition
            :: SetState (setLocation (Some loc))
            :: SetState (setIsSubmitting true)
            :: rest)
  /\ (truthy (imageUri st) = None \/ (exists e, position env = Rejected e) ->
      filter isSetIsSubmitting (events (submitForm endpoint st env)) = [])
  /\ (forall p q,
        events (submitForm endpoint st env) = p ++ q ->
        ~ In (SetState (setIsSubmitting true)) p ->
        isSubmitting (stateAfter st p) = isSubmitting st).
Proof.
  submit_cases endpoint st env; unfold events; cbn [trace background];
    rewrite ?app_nil_r.
  - repeat split.
    + simpl. intros [H | []]. discriminate.
    + intros (u & loc & H & _). congruence.
    + intros u loc H. congruence.
    + intros p q H _. apply stateAfter_no_flag.
      eapply prefix_filter_nil; [exact H | reflexivity].
  - repeat split.
    + simpl. intros [H | [H | [H | []]]]; discriminate.
    + intros (u' & loc & _ & H). congruence.
    + intros u' loc _ H. congruence.
    + intros p q H _. apply stateAfter_no_flag.
      eapply prefix_filter_nil; [exact H | reflexivity].
  - repeat split.
    + eauto.
    + intros _. simpl. auto.
    + intros u' loc' _ H. assert (loc' = loc) by congruence. subst.
      eexists. reflexivity.
    + intros [H | [e H]]; congruence.
    + intros p q H Hp'.
      destruct (prefix_before_flag _ _ H Hp') as [-> | [-> | ->]]; reflexivity.
Qed.

Lemma in_flight_flag_set_after_checks_witness :
  filter isSetIsSubmitting
    (events (submitForm exampleEndpoint exampleState
               (exampleEnv (Rejected NonError) (Rejected NonError))))
  = [].
Proof.
  destruct (in_flight_flag_set_after_checks exampleEndpoint exampleState
              (exampleEnv (Rejected NonError) (Rejected NonError)))
    as (_ & _ & H & _).
  apply H. right. exists NonError. reflexivity.
Defined.

(** ** File name and MIME type *)

Lemma fileNameOf_last_segment (uri : jsstring) (now : Number) :
  JSString.pop (JSString.split 47 uri) = Some (fileNameOf uri now)
  /\ ~ In 47%N (fileNameOf uri now)
  /\ (uri = fileNameOf uri now
      \/ exists p, uri = p ++ 47%N :: fileNameOf uri now).
Proof.
  unfold fileNameOf.
  destruct (pop_split 47 uri) as (seg & -> & Hno & Hdec). auto.
Qed.

Lemma mimeTypeOf_lowered (fileName ext : jsstring) :
  JSString.pop (JSString.split 46 fileName) = Some ext ->
  (pngIgnoringCase ext -> mimeTypeOf fileName = js "image/png")
  /\ (~ pngIgnoringCase ext -> mimeTypeOf fileName = js "image/jpeg").
Proof.
  intros H. unfold mimeTypeOf, fileExtensionOf. rewrite H. cbn [option_map].
  destruct (JSString.eqb (JSString.toLowerCase ext) (js "png")) eqn:E.
  - apply JSString_eqb_eq, toLowerCase_png in E. tauto.
  - split; [|reflexivity]. intros Hpng. apply toLowerCase_png in Hpng.
    apply JSString_eqb_eq in Hpng. congruence.
Qed.

(** C7, as the specification states it, does not hold: the extension is
    compared after [toLowerCase], so [photo.PNG], whose extension is not
    the string [png], is sent as image/png; and so is a file whose whole
    name is [png], which has no extension. *)
Lemma mime_type_ignores_case :
  ~ (forall (uri : jsstring) (now : Number) (ext : jsstring),
       extensionOf (fileNameOf uri now) = Some ext ->
       ext <> js "png" ->
       mimeTypeOf (fileNameOf uri now) = js "image/jpeg")
  /\ ~ (forall (uri : jsstring) (now : Number),
          extensionOf (fileNameOf uri now) = None ->
          mimeTypeOf (fileNameOf uri now) = js "image/jpeg").
Proof.
  split; intros H.
  - specialize (H (js "file:///cache/ImagePicker/photo.PNG") JSNumber.NaN
                  (js "PNG")).
    assert (He : extensionOf
                   (fileNameOf (js "file:///cache/ImagePicker/photo.PNG")
                      JSNumber.NaN)
                 = Some (js "PNG")) by (vm_compute; reflexivity).
    assert (Hn : js "PNG" <> js "png") by (vm_compute; discriminate).
    specialize (H He Hn). vm_compute in H. discriminate H.
  - specialize (H (js "file:///cache/ImagePicker/png") JSNumber.NaN).
    assert (He : extensionOf
                   (fileNameOf (js "file:///cache/ImagePicker/png")
                      JSNumber.NaN)
                 = None) by (vm_compute; reflexivity).
    specialize (H He). vm_compute in H. discriminate H.
Qed.

(** C7, amended: the uploaded file name is the last path segment of the
    image URI, whatever the clock says (no URI reaches the timestamp
    fallback); for a name with a dot, the MIME type is image/png when what
    follows the last dot is [png] in any letter case, and image/jpeg
    otherwise; a name without a dot that is not itself [png] in some
    letter case gives image/jpeg. *)
Theorem file_name_and_mime_type (uri : jsstring) (now : Number) :
  let fileName := fileNameOf uri now in
  (~ In 47%N fileName
   /\ (uri = fileName \/ exists p, uri = p ++ 47%N :: fileName))
  /\ (forall now', fileNameOf uri now' = fileName)
  /\ (forall stem ext,
        fileName = stem ++ 46%N :: ext ->
        ~ In 46%N ext ->
        (pngIgnoringCase ext -> mimeTypeOf fileName = js "image/png")
        /\ (~ pngIgnoringCase ext -> mimeTypeOf fileName = js "image/jpeg"))
  /\ (~ In 46%N fileName ->
      ~ pngIgnoringCase fileName ->
      mimeTypeOf fileName = js "image/jpeg").
Proof.
  intros fileName.
  destruct (fileNameOf_last_segment uri now) as (Hpop & Hno & Hdec).
  fold fileName in Hpop, Hno, Hdec.
  split; [auto|split; [|split]].
  - intros now'.
    destruct (fileNameOf_last_segment uri now') as (Hpop' & _).
    congruence.
  - intros stem ext Hname Hext. apply mimeTypeOf_lowered.
    rewrite Hname. apply pop_split_after. exact Hext.
  - intros Hdot Hpng.
    apply (@mimeTypeOf_lowered fileName fileName).
    + apply pop_split_whole. exact Hdot.
    + exact Hpng.
Qed.

Lemma file_name_and_mime_type_witness :
  mimeTypeOf (fileNameOf (js "file:///cache/ImagePicker/photo.PNG") JSNumber.NaN)
  = js "image/png".
Proof.
  destruct (file_name_and_mime_type (js "file:///cache/ImagePicker/photo.PNG")
              JSNumber.NaN) as (_ & _ & H & _).
  destruct (H (js "photo") (js "PNG")) as [Hpng _].
  - vm_compute. reflexivity.
  - vm_compute. intros [H1 | [H1 | [H1 | []]]]; discriminate H1.
  - apply Hpng. exists 80%N, 78%N, 71%N. vm_compute. tauto.
Defined.

(** ** Alerts *)

(** C8, as the specification states it, does not hold: when the position
    cannot be obtained during a submit, [getCurrentLocation] shows its
    alert and [submitForm] shows the same alert again. *)
Lemma location_failure_alerts_twice :
  ~ (forall (endpoint : jsstring) (st : State) (env : SubmitEnv)
            (u : jsstring) (e : Thrown),
       truthy (imageUri st) = Some u ->
       position env = Rejected e ->
       List.length (alerts (submitForm endpoint st env)) = 1).
Proof.
  intros H.
  assert (Hu : truthy (imageUri exampleState)
               = Some (js "file:///cache/ImagePicker/photo.jpg"))
    by (vm_compute; reflexivity).
  specialize (H exampleEndpoint exampleState
                (exampleEnv (Rejected NonError) (Rejected NonError))
                _ NonError Hu eq_refl).
  rewrite (submitForm_no_location exampleEndpoint exampleState
             (exampleEnv (Rejected NonError) (Rejected NonError))
             Hu eq_refl) in H.
  discriminate H.
Qed.

(** C8, amended: a denied permission, a failed capture, a failed location
    request outside a submit (the one started after a capture), and an
    error raised in the [try] block of [submitForm] (a rejected POST, a
    status outside 200..299) each show exactly one alert; the alert of an
    error caught by [submitForm] carries the message of the error (for a
    status outside 200..299, the string of the server's message or of the
    generic one, or the message of the TypeError when the server's message
    has no string), or the generic message when what was thrown is not an
    Error.  A failed location request during a submit shows two alerts
    with the same text. *)
Theorem alerts_per_error :
  (forall camera mediaLibrary foreground,
     (camera, mediaLibrary, foreground) <> (granted, granted, granted) ->
     alerts (requestPermissions (Fulfilled camera) (Fulfilled mediaLibrary)
               (Fulfilled foreground))
     = [ Alert (js "Permisos requeridos")
           (js "Esta aplicación necesita permisos de cámara y ubicación para funcionar correctamente.")
           [] ])
  /\ (forall e pos,
        alerts (takePicture (Rejected e) pos)
        = [ Alert (js "Error") (js "No se pudo tomar la foto") [] ])
  /\ (forall e asset rest,
        alerts (getCurrentLocation (Rejected e)) = [ locationAlert ]
        /\ alerts (takePicture (Fulfilled (Picked (asset :: rest))) (Rejected e))
           = [ locationAlert ])
  /\ (forall endpoint st env u e,
        truthy (imageUri st) = Some u ->
        position env = Rejected e ->
        alerts (submitForm endpoint st env) = [ locationAlert; locationAlert ])
  /\ (forall endpoint st env u loc,
        truthy (imageUri st) = Some u ->
        position env = Fulfilled loc ->
        (forall m,
           response env = Rejected (ErrorObject m) ->
           alerts (submitForm endpoint st env) = [ Alert (js "Error") m [] ])
        /\ (response env = Rejected NonError ->
            alerts (submitForm endpoint st env)
            = [ Alert (js "Error") (js "No se pudo enviar el formulario.") [] ])
        /\ (forall r,
              response env = Fulfilled r ->
              (status r < 200 \/ 299 < status r)%N ->
              alerts (submitForm endpoint st env)
              = [ Alert (js "Error")
                    match
                      JSON.ToString
                        (JSON.nullish (JSON.optMessage (jsonResponseOf r))
                           (JSON.Str
                              (js "Ocurrió un error al enviar el formulario.")))
                    with
                    | Some message => message
                    | None => typeErrorMessage env
                    end
                    [] ])).
Proof.
  split; [|split; [|split; [|split]]].
  - intros c m f H.
    destruct c, m, f; try reflexivity. congruence.
  - reflexivity.
  - intros e asset rest. split; reflexivity.
  - intros endpoint st env u e Hu Hp.
    rewrite (submitForm_no_location endpoint st env Hu Hp). reflexivity.
  - intros endpoint st env u loc Hu Hp.
    rewrite (submitted_alerts endpoint st env Hu Hp).
    split; [|split].
    + intros m ->. reflexivity.
    + intros ->. reflexivity.
    + intros r -> Hs. apply not_ok_iff in Hs. rewrite Hs. reflexivity.
Qed.

Lemma alerts_per_error_witness :
  alerts (submitForm exampleEndpoint exampleState
            (exampleEnv (Rejected NonError) (Rejected NonError)))
  = [ locationAlert; locationAlert ]
  /\ alerts (requestPermissions (Fulfilled granted) (Fulfilled granted)
               (Fulfilled denied))
     = [ Alert (js "Permisos requeridos")
           (js "Esta aplicación necesita permisos de cámara y ubicación para funcionar correctamente.")
           [] ].
Proof.
  assert (Hu : truthy (imageUri exampleState)
               = Some (js "file:///cache/ImagePicker/photo.jpg"))
    by (vm_compute; reflexivity).
  destruct alerts_per_error as (Hperm & _ & _ & Hloc & _).
  split.
  - apply (Hloc exampleEndpoint exampleState
             (exampleEnv (Rejected NonError) (Rejected NonError))
             _ NonError Hu eq_refl).
  - apply Hperm. discriminate.
Defined.

(** * Further properties of the component *)

(** ** Permissions *)

(** X1: when the three permission requests are answered,
    [requestPermissions] has made them in the order camera, media library,
    location, and shows its alert exactly when one of the answers is not
    [granted]; it never shows more than one. *)
Theorem permissions_alert_iff (camera mediaLibrary foreground : PermissionStatus) :
  let run := requestPermissions (Fulfilled camera) (Fulfilled mediaLibrary)
               (Fulfilled foreground) in
  trace run
  = [ RequestCameraPermissions; RequestMediaLibraryPermissions;
      RequestForegroundPermissions ] ++ alerts run
  /\ result run = Fulfilled tt
  /\ (alerts run = []
      <-> camera = granted /\ mediaLibrary = granted /\ foreground = granted)
  /\ (List.length (alerts run) <= 1)%nat.
Proof.
  destruct camera, mediaLibrary, foreground; cbv zeta;
    (split; [reflexivity | split; [reflexivity | split; [|vm_compute; lia]]]);
    (split;
     [ intros H;
       first [ repeat split; reflexivity | vm_compute in H; discriminate H ]
     | intros (H1 & H2 & H3);
       first [ reflexivity | discriminate H1 | discriminate H2
             | discriminate H3 ] ]).
Qed.

(** X2: a permission request that is rejected is not caught: the requests
    after it are not made, no alert is shown, and the promise of
    [requestPermissions] is rejected with the same error. *)
Theorem permissions_rejection_propagates
    (e : Thrown) (camera mediaLibrary : PermissionStatus)
    (later later' : Settled PermissionStatus) :
  requestPermissions (Rejected e) later later'
  = {| trace := [ RequestCameraPermissions ];
       background := [];
       result := Rejected e |}
  /\ requestPermissions (Fulfilled camera) (Rejected e) later
     = {| trace := [ RequestCameraPermissions; RequestMediaLibraryPermissions ];
          background := [];
          result := Rejected e |}
  /\ requestPermissions (Fulfilled camera) (Fulfilled mediaLibrary) (Rejected e)
     = {| trace := [ RequestCameraPermissions; RequestMediaLibraryPermissions;
                     RequestForegroundPermissions ];
          background := [];
          result := Rejected e |}.
Proof. repeat split. Qed.

(** ** Completion of the handlers *)

Lemma takePicture_fulfilled (camera : Settled ImagePickerResult)
    (pos : Settled LocationObject) :
  result (takePicture camera pos) = Fulfilled tt.
Proof.
  destruct camera as [[|[|asset rest]] | e]; try reflexivity.
  destruct pos; reflexivity.
Qed.

Lemma submitForm_fulfilled (endpoint : jsstring) (st : State) (env : SubmitEnv) :
  result (submitForm endpoint st env) = Fulfilled tt.
Proof. submit_cases endpoint st env; reflexivity. Qed.

(** X3: whatever the camera, the position service and the network do,
    [getCurrentLocation], [takePicture], [submitForm] and a press on the
    submit button end fulfilled: every rejection is caught inside them. *)
Theorem handlers_always_fulfil :
  (forall pos,
     result (getCurrentLocation pos)
     = Fulfilled match pos with
                 | Fulfilled currentLocation => Some currentLocation
                 | Rejected _ => None
                 end)
  /\ (forall camera pos, result (takePicture camera pos) = Fulfilled tt)
  /\ (forall endpoint st env,
        result (submitForm endpoint st env) = Fulfilled tt
        /\ result (pressSubmit endpoint st env) = Fulfilled tt).
Proof.
  split; [|split].
  - intros [loc | e]; reflexivity.
  - apply takePicture_fulfilled.
  - intros endpoint st env. split; [apply submitForm_fulfilled|].
    unfold pressSubmit. destruct (submitDisabled st);
      [reflexivity | apply submitForm_fulfilled].
Qed.

(** ** The stored location *)

(** X4: a position request that fails does not clear the stored location:
    after [getCurrentLocation], and after a submit that is rejected for
    the missing position, every state cell is as before, so the location
    of an earlier fix stays on the screen.  A request that succeeds
    replaces the stored location and nothing else. *)
Theorem failed_position_keeps_stored_location
    (endpoint : jsstring) (st : State) (env : SubmitEnv) (u : jsstring)
    (e : Thrown) (s : State)
    (Hu : truthy (imageUri st) = Some u)
    (Hp : position env = Rejected e) :
  stateAfter s (events (getCurrentLocation (Rejected e))) = s
  /\ stateAfter s (events (submitForm endpoint st env)) = s
  /\ (forall currentLocation,
        stateAfter s (events (getCurrentLocation (Fulfilled currentLocation)))
        = {| imageUri := imageUri s;
             description := description s;
             location := Some currentLocation;
             isSubmitting := isSubmitting s |}).
Proof.
  rewrite (submitForm_no_location endpoint st env Hu Hp).
  repeat split.
Qed.

Lemma failed_position_keeps_stored_location_witness :
  stateAfter exampleState
    (events (submitForm exampleEndpoint exampleState
               (exampleEnv (Rejected NonError) (Rejected NonError))))
  = exampleState.
Proof.
  assert (Hu : truthy (imageUri exampleState)
               = Some (js "file:///cache/ImagePicker/photo.jpg"))
    by (vm_compute; reflexivity).
  apply (failed_position_keeps_stored_location exampleEndpoint exampleState
           (exampleEnv (Rejected NonError) (Rejected NonError))
           exampleState Hu eq_refl).
Defined.

(** ** Submissions *)

Lemma submitDisabled_ready (st : State) (u : jsstring) :
  truthy (imageUri st) = Some u ->
  isSubmitting st = false ->
  submitDisabled st = false.
Proof.
  intros Hu Hf. unfold submitDisabled.
  rewrite (truthy_toBoolean _ Hu), Hf. reflexivity.
Qed.



Lemma In_fetches {A} (r : Run A) (ev : Event) :
  In ev (events r) -> isFetch ev = true -> In ev (fetches r).
Proof. intros H1 H2. unfold fetches. apply filter_In. auto. Qed.

(** X6: one run of [submitForm] makes at most one network request, always
    a POST to the fixed endpoint; it makes one exactly when the image is
    present and the position was obtained. *)
Theorem at_most_one_post (endpoint : jsstring) (st : State) (env : SubmitEnv) :
  (List.length (fetches (submitForm endpoint st env)) <= 1)%nat
  /\ (forall e m body,
        In (Fetch e m body) (events (submitForm endpoint st env)) ->
        e = endpoint /\ m = js "POST")
  /\ (List.length (fetches (submitForm endpoint st env)) = 1%nat
      <-> exists u loc,
            truthy (imageUri st) = Some u /\ position env = Fulfilled loc).
Proof.
  destruct (submitForm_cases endpoint st env)
    as [Hu | [(u & e & Hu & Hp) | (u & loc & Hu & Hp)]].
  - assert (Hf : fetches (submitForm endpoint st env) = [])
      by (rewrite (submitForm_no_image endpoint st env Hu); reflexivity).
    split; [rewrite Hf; simpl; lia|]. split.
    + intros e m body Hin. apply In_fetches in Hin; [|reflexivity].
      rewrite Hf in Hin. destruct Hin.
    + rewrite Hf. split; [discriminate|].
      intros (u & loc & H & _). congruence.
  - assert (Hf : fetches (submitForm endpoint st env) = [])
      by (rewrite (submitForm_no_location endpoint st env Hu Hp); reflexivity).
    split; [rewrite Hf; simpl; lia|]. split.
    + intros e' m body Hin. apply In_fetches in Hin; [|reflexivity].
      rewrite Hf in Hin. destruct Hin.
    + rewrite Hf. split; [discriminate|].
      intros (u' & loc & _ & H). congruence.
  - pose proof (submitted_fetches endpoint st env Hu Hp) as Hf.
    split; [rewrite Hf; simpl; lia|]. split.
    + intros e m body Hin. apply In_fetches in Hin; [|reflexivity].
      rewrite Hf in Hin. destruct Hin as [Heq | []].
      injection Heq as <- <- _. auto.
    + rewrite Hf. split; [eauto | reflexivity].
Qed.

(** X7: when the status is outside 200..299 and the body parses to
    something that is not an object, to an object without [message], or to
    an object whose [message] is null, the generic message is displayed. *)
Theorem absent_message_shows_fallback
    (endpoint : jsstring) (st : State) (env : SubmitEnv)
    (u : jsstring) (loc : LocationObject) (r : Response) (v : JSON.t)
    (Hu : truthy (imageUri st) = Some u)
    (Hp : position env = Fulfilled loc)
    (Hr : response env = Fulfilled r)
    (Hs : (status r < 200 \/ 299 < status r)%N)
    (Hj : json r = Fulfilled v)
    (Hm : (forall fields, v <> JSON.Obj fields)
          \/ (exists fields,
                v = JSON.Obj fields
                /\ (JSON.getOwn fields (js "message") = None
                    \/ JSON.getOwn fields (js "message") = Some JSON.Null))) :
  alerts (submitForm endpoint st env)
  = [ Alert (js "Error") (js "Ocurrió un error al enviar el formulario.") [] ].
Proof.
  rewrite (submitted_alerts endpoint st env Hu Hp), Hr.
  apply not_ok_iff in Hs. rewrite Hs.
  unfold backendMessageOf, jsonResponseOf. rewrite Hj.
  destruct Hm as [Hno | (fields & -> & [Hm | Hm])].
  - destruct v; try reflexivity. exfalso. eapply Hno. reflexivity.
  - cbn [JSON.optMessage]. rewrite Hm. reflexivity.
  - cbn [JSON.optMessage]. rewrite Hm. reflexivity.
Qed.

Lemma absent_message_shows_fallback_witness :
  alerts (submitForm exampleEndpoint exampleState
            (exampleEnv (Fulfilled exampleLocation)
               (Fulfilled
                  (exampleResponse 404
                     (Fulfilled (JSON.Obj [ (js "message", JSON.Null) ]))))))
  = [ Alert (js "Error") (js "Ocurrió un error al enviar el formulario.") [] ].
Proof.
  assert (Hu : truthy (imageUri exampleState)
               = Some (js "file:///cache/ImagePicker/photo.jpg"))
    by (vm_compute; reflexivity).
  apply (absent_message_shows_fallback exampleEndpoint exampleState
           (exampleEnv (Fulfilled exampleLocation)
              (Fulfilled
                 (exampleResponse 404
                    (Fulfilled (JSON.Obj [ (js "message", JSON.Null) ])))))
           (v := JSON.Obj [ (js "message", JSON.Null) ])
           Hu eq_refl eq_refl).
  - right. vm_compute. reflexivity.
  - reflexivity.
  - right. exists [ (js "message", JSON.Null) ].
    split; [reflexivity|]. right. vm_compute. reflexivity.
Defined.

(** ** The description that is posted *)

Lemma trimStart_head (s : jsstring) (c : N) (r : jsstring) :
  JSString.trimStart s = c :: r -> JSString.isWhiteSpace c = false.
Proof.
  induction s as [|x s IH]; simpl; [discriminate|].
  destruct (JSString.isWhiteSpace x) eqn:Hx; [exact IH|].
  intros H. injection H as <- _. exact Hx.
Qed.

Lemma forallb_rev {A} (f : A -> bool) (l : list A) :
  forallb f (rev l) = forallb f l.
Proof.
  induction l as [|x l IH]; [reflexivity|].
  simpl. rewrite forallb_app, IH. simpl. rewrite andb_true_r. apply andb_comm.
Qed.

Lemma trimEnd_prefix (s : jsstring) :
  exists q, s = JSString.trimEnd s ++ q
            /\ forallb JSString.isWhiteSpace q = true.
Proof.
  unfold JSString.trimEnd.
  destruct (trimStart_suffix (rev s)) as (p & Hp & Hw).
  exists (rev p). split.
  - rewrite <- rev_app_distr, <- Hp, rev_involutive. reflexivity.
  - rewrite forallb_rev. exact Hw.
Qed.

Lemma trimEnd_last (s r : jsstring) (c : N) :
  JSString.trimEnd s = r ++ [c] -> JSString.isWhiteSpace c = false.
Proof.
  unfold JSString.trimEnd. intros H.
  apply (f_equal (@rev N)) in H. rewrite rev_involutive, rev_app_distr in H.
  simpl in H. eapply trimStart_head. exact H.
Qed.

Lemma trimEnd_keeps_head (c : N) (r : jsstring) :
  JSString.isWhiteSpace c = false ->
  exists r', JSString.trimEnd (c :: r) = c :: r'.
Proof.
  intros Hc. destruct (trimEnd_prefix (c :: r)) as (q & Hq & Hw).
  destruct (JSString.trimEnd (c :: r)) as [|c' r'].
  - simpl in Hq. subst q. simpl in Hw. rewrite Hc in Hw. discriminate.
  - simpl in Hq. injection Hq as <- _. eauto.
Qed.

(** What [trim] returns is empty or begins and ends with a code unit that
    is not white space, and the string is its result between two runs of
    white space. *)

Lemma trim_spec (s : jsstring) :
  (exists p q, s = p ++ JSString.trim s ++ q
               /\ forallb JSString.isWhiteSpace p = true
               /\ forallb JSString.isWhiteSpace q = true)
  /\ (forall c r, JSString.trim s = c :: r -> JSString.isWhiteSpace c = false)
  /\ (forall r c, JSString.trim s = r ++ [c] -> JSString.isWhiteSpace c = false).
Proof.
  unfold JSString.trim. split; [|split].
  - destruct (trimStart_suffix s) as (p & Hp & Hwp).
    destruct (trimEnd_prefix (JSString.trimStart s)) as (q & Hq & Hwq).
    exists p, q. rewrite <- Hq. auto.
  - intros c r H.
    destruct (JSString.trimStart s) as [|x t] eqn:Hs.
    + discriminate H.
    + pose proof (trimStart_head s Hs) as Hx.
      destruct (trimEnd_keeps_head x t Hx) as (r' & Hr').
      rewrite Hr' in H. injection H as <- _. exact Hx.
  - intros r c H. eapply trimEnd_last. exact H.
Qed.

Lemma trim_fixed (s r r' : jsstring) (c c' : N) :
  s = c :: r -> s = r' ++ [c'] ->
  JSString.isWhiteSpace c = false -> JSString.isWhiteSpace c' = false ->
  JSString.trim s = s.
Proof.
  intros Hs Hs' Hc Hc'. unfold JSString.trim.
  assert (H1 : JSString.trimStart s = s).
  { rewrite Hs. simpl. rewrite Hc. reflexivity. }
  rewrite H1. unfold JSString.trimEnd.
  rewrite Hs' at 1. rewrite rev_app_distr. simpl. rewrite Hc'. simpl.
  rewrite rev_involutive. symmetry. exact Hs'.
Qed.

Lemma description_part (st : State) (env : SubmitEnv) (u : jsstring)
    (loc : LocationObject) (d : jsstring) :
  In (js "description", TextPart d) (bodyFor st env u loc) ->
  d = JSString.trim (description st) /\ d <> [].
Proof.
  unfold bodyFor, bodyOf. intros H. apply in_app_or in H as [H | H].
  - exfalso. destruct H as [H | [H | [H | []]]].
    + discriminate H.
    + injection H as H _. vm_compute in H. discriminate H.
    + injection H as H _. vm_compute in H. discriminate H.
  - destruct (JSString.trim (description st)) as [|c r]; [destruct H|].
    destruct H as [H | []]. injection H as <-. split; [reflexivity | discriminate].
Qed.

(** X8: the description that is posted is what the user typed without the
    white space around it: it is not empty, it begins and ends with a code
    unit that is not white space, what was cut on both sides is white
    space only, and a text that has no white space at its ends is posted
    as it is. *)
Theorem posted_description_is_trimmed
    (endpoint : jsstring) (st : State) (env : SubmitEnv)
    (e m : jsstring) (body : FormData) (d : jsstring)
    (Hfetch : In (Fetch e m body) (events (submitForm endpoint st env)))
    (Hpart : In (js "description", TextPart d) body) :
  d <> []
  /\ (exists p q, description st = p ++ d ++ q
                  /\ forallb JSString.isWhiteSpace p = true
                  /\ forallb JSString.isWhiteSpace q = true)
  /\ (exists c r, d = c :: r /\ JSString.isWhiteSpace c = false)
  /\ (exists r c, d = r ++ [c] /\ JSString.isWhiteSpace c = false)
  /\ (forall c r r' c',
        description st = c :: r ->
        description st = r' ++ [c'] ->
        JSString.isWhiteSpace c = false ->
        JSString.isWhiteSpace c' = false ->
        d = description st).
Proof.
  assert (Hd : d = JSString.trim (description st) /\ d <> []).
  { destruct (submitForm_cases endpoint st env)
      as [Hu | [(u & e' & Hu & Hp) | (u & loc & Hu & Hp)]];
      apply In_fetches in Hfetch; try reflexivity.
    - rewrite (submitForm_no_image endpoint st env Hu) in Hfetch.
      destruct Hfetch.
    - rewrite (submitForm_no_location endpoint st env Hu Hp) in Hfetch.
      destruct Hfetch.
    - rewrite (submitted_fetches endpoint st env Hu Hp) in Hfetch.
      destruct Hfetch as [Heq | []]. injection Heq as _ _ <-.
      eapply description_part. exact Hpart. }
  destruct Hd as [Hd Hne].
  destruct (trim_spec (description st)) as (Hdec & Hhead & Hlast).
  rewrite <- Hd in Hdec, Hhead, Hlast.
  split; [exact Hne|]. split; [exact Hdec|]. split; [|split].
  - destruct d as [|c r]; [congruence|]. exists c, r. split; [reflexivity|].
    eapply Hhead. reflexivity.
  - destruct (exists_last Hne) as (r & c & Hrc). exists r, c.
    split; [exact Hrc|]. eapply Hlast. exact Hrc.
  - intros c r r' c' H1 H2 Hc Hc'. rewrite Hd.
    eapply trim_fixed; eauto.
Qed.

Lemma posted_description_is_trimmed_witness : js "Bridge view" <> [].
Proof.
  pose (env := exampleEnv (Fulfilled exampleLocation) (Rejected NonError)).
  destruct (posted_description_is_trimmed exampleEndpoint exampleState env
              exampleEndpoint (js "POST")
              (bodyFor exampleState env
                 (js "file:///cache/ImagePicker/photo.jpg") exampleLocation)
              (js "Bridge view")) as [H _].
  - vm_compute. do 3 right. left. reflexivity.
  - vm_compute. do 3 right. left. reflexivity.
  - exact H.
Defined.

(** ** The text of the coordinates *)










(** ** The confirmation summary *)

(** X10: the summary of a successful submission always reads
    [Foto: Incluida] (the other wording cannot be reached, the photo being
    required), shows the trimmed description, or [Sin descripción] when
    the description is empty or white space only, and the latitude and
    longitude in the text that was posted. *)
Theorem success_summary_text
    (endpoint : jsstring) (st : State) (env : SubmitEnv)
    (u : jsstring) (loc : LocationObject) (r : Response)
    (Hu : truthy (imageUri st) = Some u)
    (Hp : position env = Fulfilled loc)
    (Hr : response env = Fulfilled r)
    (Hs : (200 <= status r <= 299)%N) :
  let lat := JSNumber.toString (latitude (coords loc)) in
  let lng := JSNumber.toString (longitude (coords loc)) in
  let shown d :=
    [ Alert (js "Formulario enviado")
        (js "Foto: " ++ js "Incluida" ++ nl
         ++ js "Descripción: " ++ d ++ nl
         ++ js "Latitud: " ++ lat ++ nl
         ++ js "Longitud: " ++ lng)
        [ okButton ] ] in
  (JSString.trim (description st) <> [] ->
   alerts (submitForm endpoint st env) = shown (JSString.trim (description st)))
  /\ (forallb JSString.isWhiteSpace (description st) = true ->
      alerts (submitForm endpoint st env) = shown (js "Sin descripción")).
Proof.
  intros lat lng shown. apply ok_iff in Hs.
  rewrite (submitted_alerts endpoint st env Hu Hp), Hr, Hs.
  unfold successAlert, summaryOf, payloadFor, superFormPayloadOf, shown.
  cbn [SuperForm.lat SuperForm.lng]. fold lat lng.
  destruct (truthy_Some _ Hu) as [Himg _]. rewrite Himg in Hu |- *. rewrite Hu.
  split.
  - intros Hd. destruct (JSString.trim (description st)); [congruence|].
    reflexivity.
  - intros Hw. apply trim_nil_iff in Hw. rewrite Hw. reflexivity.
Qed.

Lemma success_summary_text_witness :
  alerts (submitForm exampleEndpoint exampleState
            (exampleEnv (Fulfilled exampleLocation)
               (Fulfilled (exampleResponse 200 (Fulfilled JSON.Null)))))
  = [ Alert (js "Formulario enviado")
        (js "Foto: Incluida" ++ nl ++ js "Descripción: Bridge view" ++ nl
         ++ js "Latitud: 40" ++ nl ++ js "Longitud: -75")
        [ okButton ] ].
Proof.
  assert (Hu : truthy (imageUri exampleState)
               = Some (js "file:///cache/ImagePicker/photo.jpg"))
    by (vm_compute; reflexivity).
  assert (Hs : (200 <= status (exampleResponse 200 (Fulfilled JSON.Null)) <= 299)%N)
    by (simpl; lia).
  destruct (success_summary_text exampleEndpoint exampleState
              (exampleEnv (Fulfilled exampleLocation)
                 (Fulfilled (exampleResponse 200 (Fulfilled JSON.Null))))
              Hu eq_refl eq_refl Hs) as [H _].
  rewrite H.
  - vm_compute. reflexivity.
  - vm_compute. discriminate.
Defined.

(** ** Edge cases of the file name *)

(** X11: a URI that ends with a slash gives the empty file name, not the
    timestamp name, and the part is typed image/jpeg; and the file name of
    a file name is itself. *)
Theorem file_name_edge_cases (uri : jsstring) (now : Number) :
  fileNameOf (uri ++ [47%N]) now = []
  /\ mimeTypeOf (fileNameOf (uri ++ [47%N]) now) = js "image/jpeg"
  /\ fileNameOf (fileNameOf uri now) now = fileNameOf uri now.
Proof.
  assert (H : fileNameOf (uri ++ [47%N]) now = []).
  { unfold fileNameOf. rewrite pop_split_after; [reflexivity | intros []]. }
  split; [exact H|]. split; [rewrite H; reflexivity|].
  destruct (fileNameOf_last_segment uri now) as (_ & Hno & _).
  unfold fileNameOf at 1. rewrite (pop_split_whole 47 _ Hno). reflexivity.
Qed.

(** ** Sessions *)

Lemma takePicture_events (camera : Settled ImagePickerResult)
    (pos : Settled LocationObject) :
  filter isFetch (events (takePicture camera pos)) = []
  /\ filter isSetIsSubmitting (events (takePicture camera pos)) = [].
Proof.
  destruct camera as [[|[|asset rest]] | e]; try (split; reflexivity).
  destruct pos; split; reflexivity.
Qed.

Lemma acknowledged_app (t t' : list Event) :
  acknowledged (t ++ t') = acknowledged t ++ acknowledged t'.
Proof. apply flat_map_app. Qed.

Lemma acknowledged_afterFetch (typeError : jsstring) (st : State) (u : jsstring)
    (loc : LocationObject) (resp : Settled Response) :
  acknowledged (afterFetch typeError st u loc resp) = []
  \/ acknowledged (afterFetch typeError st u loc resp)
     = [ SetState (setImageUri None); SetState (setDescription []);
         SetState (setLocation None) ].
Proof.
  destruct resp as [r | e]; [|left; reflexivity].
  unfold afterFetch. destruct (ok r); [|left; reflexivity].
  right. destruct (JSON.toBoolean (jsonResponseOf r)); reflexivity.
Qed.

Lemma acknowledged_submitted (st : State) (env : SubmitEnv) (endpoint u : jsstring)
    (loc : LocationObject) :
  acknowledged
    (GetCurrentPosition :: SetState (setLocation (Some loc))
     :: SetState (setIsSubmitting true)
     :: Fetch endpoint (js "POST") (bodyFor st env u loc)
     :: afterFetch (typeErrorMessage env) st u loc (response env)
        ++ [ SetState (setIsSubmitting false) ])
  = acknowledged (afterFetch (typeErrorMessage env) st u loc (response env)).
Proof.
  change (acknowledged (afterFetch (typeErrorMessage env) st u loc (response env)
                        ++ [ SetState (setIsSubmitting false) ])
          = acknowledged (afterFetch (typeErrorMessage env) st u loc (response env))).
  rewrite acknowledged_app. apply app_nil_r.
Qed.

(** The events of a press on the submit button, with the dismissal of its
    alerts: nothing, an alert without handler, or a submission. *)

Lemma step_submit_cases (endpoint : jsstring) (st : State) (env : SubmitEnv) :
  (exists t, step endpoint st (Submit env) = t
             /\ filter isFetch t = []
             /\ filter isSetIsSubmitting t = [])
  \/ (exists u loc ack,
        truthy (imageUri st) = Some u
        /\ step endpoint st (Submit env)
           = [ GetCurrentPosition; SetState (setLocation (Some loc));
               SetState (setIsSubmitting true) ]
             ++ Fetch endpoint (js "POST") (bodyFor st env u loc)
                :: (afterFetch (typeErrorMessage env) st u loc (response env)
                    ++ [ SetState (setIsSubmitting false) ] ++ ack)
        /\ filter isFetch ack = []
        /\ filter isSetIsSubmitting ack = []).
Proof.
  unfold step, pressSubmit. destruct (submitDisabled st).
  { left. exists []. repeat split. }
  destruct (submitForm_cases endpoint st env)
    as [Hu | [(u & e & Hu & Hp) | (u & loc & Hu & Hp)]].
  - left. rewrite (submitForm_no_image endpoint st env Hu).
    eexists. repeat split.
  - left. rewrite (submitForm_no_location endpoint st env Hu Hp).
    eexists. repeat split.
  - right. rewrite (submitForm_submitted endpoint st env Hu Hp).
    unfold events. cbn [trace background]. rewrite app_nil_r.
    rewrite acknowledged_submitted.
    exists u, loc, (acknowledged (afterFetch (typeErrorMessage env) st u loc (response env))).
    split; [exact Hu|]. split.
    + cbn [app]. rewrite <- app_assoc. reflexivity.
    + destruct (acknowledged_afterFetch (typeErrorMessage env) st u loc (response env)) as [-> | ->];
        split; reflexivity.
Qed.

Lemma step_keeps_flag_down (endpoint : jsstring) (st : State) (a : Action) :
  isSubmitting st = false ->
  isSubmitting (stateAfter st (step endpoint st a)) = false.
Proof.
  intros Hf. destruct a as [camera pos | text | env].
  - cbn [step]. rewrite stateAfter_no_flag; [exact Hf|].
    apply takePicture_events.
  - exact Hf.
  - destruct (step_submit_cases endpoint st env)
      as [(t & -> & _ & Hno) | (u & loc & ack & _ & -> & _ & Hno)].
    + rewrite stateAfter_no_flag; assumption.
    + rewrite app_comm_cons, !app_assoc, stateAfter_app.
      rewrite stateAfter_no_flag by exact Hno.
      rewrite stateAfter_app. reflexivity.
Qed.

Lemma session_keeps_flag_down (endpoint : jsstring) (actions : list Action) :
  forall st,
    isSubmitting st = false ->
    isSubmitting (stateAfter st (session endpoint st actions)) = false.
Proof.
  induction actions as [|a rest IH]; intros st Hf; [exact Hf|].
  cbn [session]. rewrite stateAfter_app. apply IH.
  apply step_keeps_flag_down. exact Hf.
Qed.

(** X12: in a session that starts from the initial state, the in-flight
    flag is down after every action, whatever the camera, the position
    service and the server answered; the submit button is then disabled
    exactly when there is no photo. *)
Theorem session_flag_down (endpoint : jsstring) (actions : list Action) :
  let st := stateAfter initialState (session endpoint initialState actions) in
  isSubmitting st = false
  /\ submitDisabled st = negb (toBoolean (imageUri st)).
Proof.
  intros st.
  assert (H : isSubmitting st = false)
    by (apply session_keeps_flag_down; reflexivity).
  split; [exact H|]. unfold submitDisabled. rewrite H. apply orb_false_r.
Qed.

Lemma no_fetch_no_split (l t1 t2 : list Event) (e m : jsstring) (body : FormData) :
  filter isFetch l = [] -> l <> t1 ++ Fetch e m body :: t2.
Proof.
  intros Hno ->. rewrite filter_app in Hno. simpl in Hno.
  apply app_eq_nil in Hno as [_ Hno]. discriminate Hno.
Qed.

Lemma fetch_position (pre post t1 t2 : list Event) (x : Event)
    (e m : jsstring) (body : FormData) :
  filter isFetch pre = [] ->
  filter isFetch post = [] ->
  pre ++ x :: post = t1 ++ Fetch e m body :: t2 ->
  t1 = pre /\ x = Fetch e m body.
Proof.
  revert t1. induction pre as [|a pre IH]; intros t1 Hpre Hpost H.
  - destruct t1 as [|y t1]; simpl in H.
    + injection H as -> _. auto.
    + injection H as _ H. exfalso.
      eapply no_fetch_no_split; [exact Hpost | exact H].
  - simpl in Hpre. destruct (isFetch a) eqn:Ha; [discriminate|].
    destruct t1 as [|y t1]; simpl in H.
    + injection H as -> _. discriminate Ha.
    + injection H as -> H. destruct (IH t1 Hpre Hpost H) as [-> ->]. auto.
Qed.

Lemma imageUri_set (t : list Event) (s : State) (u : jsstring) :
  imageUri (stateAfter s t) = Some u ->
  imageUri s = Some u \/ In (SetState (setImageUri (Some u))) t.
Proof.
  revert s. induction t as [|ev t IH]; intros s H; [left; exact H|].
  change (stateAfter s (ev :: t)) with (stateAfter (applyEvent s ev) t) in H.
  destruct (IH _ H) as [Hs | Hin]; [|right; right; exact Hin].
  destruct ev as [[v | v | v | v] | | | | | | | | |]; simpl in Hs; auto.
  right. left. congruence.
Qed.

Lemma step_fetch (endpoint : jsstring) (st : State) (a : Action)
    (t1 t2 : list Event) (e m : jsstring) (body : FormData) :
  step endpoint st a = t1 ++ Fetch e m body :: t2 ->
  e = endpoint /\ m = js "POST"
  /\ exists u name type rest,
       body = (js "foto", FilePart u name type) :: rest
       /\ truthy (imageUri (stateAfter st t1)) = Some u.
Proof.
  intros H. destruct a as [camera pos | text | env].
  - exfalso. eapply no_fetch_no_split; [|exact H]. apply takePicture_events.
  - exfalso. eapply no_fetch_no_split; [|exact H]. reflexivity.
  - destruct (step_submit_cases endpoint st env)
      as [(t & Ht & Hno & _) | (u & loc & ack & Hu & Ht & Hno & _)];
      rewrite Ht in H.
    + exfalso. eapply no_fetch_no_split; [exact Hno | exact H].
    + apply fetch_position in H as [-> Heq].
      * injection Heq as <- <- <-. split; [reflexivity|].
        split; [reflexivity|]. unfold bodyFor, bodyOf.
        do 4 eexists. split; [reflexivity | exact Hu].
      * reflexivity.
      * rewrite !filter_app, afterFetch_fetches, Hno. reflexivity.
Qed.

Lemma session_fetch (endpoint : jsstring) (actions : list Action) :
  forall st t1 t2 e m body,
    session endpoint st actions = t1 ++ Fetch e m body :: t2 ->
    e = endpoint /\ m = js "POST"
    /\ exists u name type rest,
         body = (js "foto", FilePart u name type) :: rest
         /\ truthy (imageUri (stateAfter st t1)) = Some u.
Proof.
  induction actions as [|a rest IH]; intros st t1 t2 e m body H.
  - destruct t1; discriminate H.
  - cbn [session] in H. apply app_eq_app in H as [l [[H1 H2] | [H1 H2]]].
    + destruct l as [|x l].
      * simpl in H2. rewrite app_nil_r in H1. subst t1.
        symmetry in H2. apply (IH _ []) in H2. exact H2.
      * simpl in H2. injection H2 as <- _.
        eapply step_fetch. exact H1.
    + subst t1. rewrite stateAfter_app. eapply IH. exact H2.
Qed.

(** X13: in a session that starts from the initial state, every network
    request is a POST to the fixed endpoint whose first field is the file
    part of the image reference held in the state at that moment; that
    reference is not empty and was stored by an earlier capture.  No
    request is made before a photo was taken. *)
Theorem session_posts_current_photo
    (endpoint : jsstring) (actions : list Action)
    (t1 t2 : list Event) (e m : jsstring) (body : FormData)
    (H : session endpoint initialState actions = t1 ++ Fetch e m body :: t2) :
  e = endpoint /\ m = js "POST"
  /\ exists u name type rest,
       body = (js "foto", FilePart u name type) :: rest
       /\ u <> []
       /\ imageUri (stateAfter initialState t1) = Some u
       /\ In (SetState (setImageUri (Some u))) t1.
Proof.
  destruct (@session_fetch endpoint actions initialState t1 t2 e m body H)
    as (He & Hm & u & name & type & rest & Hbody & Hu).
  split; [exact He|]. split; [exact Hm|].
  exists u, name, type, rest.
  destruct (truthy_Some _ Hu) as [Himg Hne].
  repeat split; trivial.
  destruct (@imageUri_set t1 initialState u Himg) as [Hinit | Hin];
    [discriminate | exact Hin].
Qed.

Lemma session_posts_current_photo_witness :
  let trace := session exampleEndpoint initialState exampleSession in
  exampleEndpoint = exampleEndpoint /\ js "POST" = js "POST"
  /\ exists u name type rest,
       exampleBody = (js "foto", FilePart u name type) :: rest
       /\ u <> []
       /\ imageUri (stateAfter initialState (firstn 8 trace)) = Some u
       /\ In (SetState (setImageUri (Some u))) (firstn 8 trace).
Proof.
  intros trace.
  apply (@session_posts_current_photo exampleEndpoint exampleSession
           (firstn 8 trace) (skipn 9 trace) exampleEndpoint (js "POST")
           exampleBody).
  vm_compute. reflexivity.
Defined.

(** ** The earlier revision *)

Section LegacyRuns.

Variable imageUri' : option jsstring.
Variable description' : jsstring.
Variable env : Legacy.SubmitEnv.

Lemma legacy_submitForm_cases :
  (truthy imageUri' = None
   /\ Legacy.submitForm imageUri' description' env
      = {| trace := [ Alert (js "Error")
                        (js "Debes tomar una foto antes de enviar el formulario")
                        [] ];
           background := [];
           result := Fulfilled tt |})
  \/ (exists u e,
        truthy imageUri' = Some u /\ Legacy.position env = Rejected e
        /\ Legacy.submitForm imageUri' description' env
           = {| trace := [ GetCurrentPosition; locationAlert; locationAlert ];
                background := [];
                result := Fulfilled tt |})
  \/ (exists u loc,
        truthy imageUri' = Some u /\ Legacy.position env = Fulfilled loc
        /\ Legacy.submitForm imageUri' description' env
           = {| trace :=
                  [ GetCurrentPosition;
                    SetState (setLocation (Some loc));
                    Alert (js "Formulario enviado")
                      (Legacy.summaryOf imageUri' description' loc)
                      [ okButton ];
                    ConsoleLog (js "Datos del formulario:")
                      (LogJSON
                         (Legacy.formDataOf description' u loc
                            (Legacy.isoTimestamp env))) ];
                background := [];
                result := Fulfilled tt |}).
Proof.
  unfold Legacy.submitForm.
  destruct (truthy imageUri') as [u|]; [|left; split; reflexivity].
  right. destruct (Legacy.position env) as [loc | e].
  - right. exists u, loc. repeat split.
  - left. exists u, e. repeat split.
Qed.

End LegacyRuns.

(** X14: the earlier [submitForm] never contacts the network and never
    raises an in-flight flag, and always ends fulfilled.  When the photo is
    missing or the position cannot be obtained it does exactly what the
    present [submitForm] does; otherwise it shows the summary at once, with
    the same OK handler, the description in the summary being the text as
    typed, not trimmed. *)
Theorem legacy_submitForm_runs
    (endpoint : jsstring) (st : State) (env : SubmitEnv)
    (old : Legacy.SubmitEnv)
    (Hpos : Legacy.position old = position env) :
  let run := Legacy.submitForm (imageUri st) (description st) old in
  fetches run = []
  /\ filter isSetIsSubmitting (events run) = []
  /\ result run = Fulfilled tt
  /\ (truthy (imageUri st) = None \/ (exists e, position env = Rejected e) ->
      run = submitForm endpoint st env)
  /\ (forall u loc,
        truthy (imageUri st) = Some u ->
        position env = Fulfilled loc ->
        alerts run
        = [ Alert (js "Formulario enviado")
              (js "Foto: " ++ js "Incluida" ++ nl
               ++ js "Descripción: "
               ++ orElse (description st) (js "Sin descripción") ++ nl
               ++ js "Latitud: "
               ++ JSNumber.toString (latitude (coords loc)) ++ nl
               ++ js "Longitud: "
               ++ JSNumber.toString (longitude (coords loc)))
              [ okButton ] ]).
Proof.
  intros run. subst run.
  destruct (legacy_submitForm_cases (imageUri st) (description st) old)
    as [[Hu Hrun] | [(u & e & Hu & Hp & Hrun) | (u & loc & Hu & Hp & Hrun)]];
    rewrite Hrun; try rewrite Hpos in Hp.
  - repeat split.
    + intros _. rewrite (submitForm_no_image endpoint st env Hu). reflexivity.
    + intros u loc Hu'. congruence.
  - repeat split.
    + intros _. rewrite (submitForm_no_location endpoint st env Hu Hp).
      reflexivity.
    + intros u' loc _ Hp'. congruence.
  - repeat split.
    + intros [Hu' | [e Hp']]; congruence.
    + intros u' loc' _ Hp'. assert (loc' = loc) by congruence. subst loc'.
      unfold Legacy.summaryOf. rewrite Hu. reflexivity.
Qed.

Lemma legacy_submitForm_runs_witness :
  Legacy.submitForm (imageUri initialState) (description initialState)
    (exampleLegacyEnv (Rejected NonError))
  = submitForm exampleEndpoint initialState
      (exampleEnv (Rejected NonError) (Rejected NonError)).
Proof.
  destruct (legacy_submitForm_runs exampleEndpoint initialState
              (exampleEnv (Rejected NonError) (Rejected NonError))
              (exampleLegacyEnv (Rejected NonError)) eq_refl)
    as (_ & _ & _ & H & _).
  apply H. left. reflexivity.
Defined.

(** X15: the earlier [takePicture] stores the same image reference as the
    present one and shows the same alert on failure, but never asks for
    the position: the location prefetch came with the present revision. *)
Theorem legacy_takePicture_runs
    (camera : Settled ImagePickerResult) (pos : Settled LocationObject)
    (s : State) :
  imageUri (stateAfter s (events (Legacy.takePicture camera)))
  = imageUri (stateAfter s (events (takePicture camera pos)))
  /\ alerts (Legacy.takePicture camera)
     = filter isAlert (trace (takePicture camera pos))
  /\ ~ In GetCurrentPosition (events (Legacy.takePicture camera))
  /\ (In GetCurrentPosition (events (takePicture camera pos))
      <-> exists asset rest, camera = Fulfilled (Picked (asset :: rest))).
Proof.
  destruct camera as [[|[|asset rest]] | e].
  - repeat split; try reflexivity.
    + intros [H | []]. discriminate H.
    + intros [H | []]. discriminate H.
    + intros (a & r & H). discriminate H.
  - repeat split; try reflexivity.
    + intros [H | []]. discriminate H.
    + intros [H | []]. discriminate H.
    + intros (a & r & H). discriminate H.
  - repeat split; try (destruct pos; reflexivity).
    + intros [H | [H | []]]; discriminate H.
    + eauto.
    + intros _. destruct pos; simpl; auto.
  - repeat split; try reflexivity.
    + intros [H | [H | []]]; discriminate H.
    + intros [H | [H | []]]; discriminate H.
    + intros (a & r & H). discriminate H.
Qed.

(** ** A submission and the press that follows *)

Lemma press_ready (endpoint : jsstring) (st : State) (env : SubmitEnv)
    (u : jsstring) (loc : LocationObject) :
  truthy (imageUri st) = Some u ->
  position env = Fulfilled loc ->
  isSubmitting st = false ->
  step endpoint st (Submit env)
  = (GetCurrentPosition :: SetState (setLocation (Some loc))
     :: SetState (setIsSubmitting true)
     :: Fetch endpoint (js "POST") (bodyFor st env u loc)
     :: afterFetch (typeErrorMessage env) st u loc (response env)
        ++ [ SetState (setIsSubmitting false) ])
    ++ acknowledged (afterFetch (typeErrorMessage env) st u loc (response env)).
Proof.
  intros Hu Hp Hf. unfold step, pressSubmit.
  rewrite (submitDisabled_ready st Hu Hf).
  rewrite (submitForm_submitted endpoint st env Hu Hp).
  unfold events. cbn [trace background]. rewrite app_nil_r.
  rewrite acknowledged_submitted. reflexivity.
Qed.

Lemma step_submit_initial (endpoint : jsstring) (env : SubmitEnv) :
  step endpoint initialState (Submit env) = [].
Proof. reflexivity. Qed.

(** X16: once a successful submission has been acknowledged the state is
    the initial one, and a further press on the submit button does
    nothing, whatever the environment would answer: the form cannot be
    posted twice. *)
Theorem acknowledged_success_disables_submit
    (endpoint : jsstring) (st : State) (env : SubmitEnv)
    (u : jsstring) (loc : LocationObject) (r : Response)
    (Hu : truthy (imageUri st) = Some u)
    (Hp : position env = Fulfilled loc)
    (Hf : isSubmitting st = false)
    (Hr : response env = Fulfilled r)
    (Hs : (200 <= status r <= 299)%N) :
  let st' := stateAfter st (step endpoint st (Submit env)) in
  st' = initialState
  /\ (forall env', step endpoint st' (Submit env') = [])
  /\ (forall env', fetches (pressSubmit endpoint st' env') = []).
Proof.
  intros st'.
  assert (H : st' = initialState).
  { subst st'. rewrite (press_ready endpoint st env Hu Hp Hf), Hr.
    apply ok_iff in Hs. unfold afterFetch. rewrite Hs.
    destruct (JSON.toBoolean (jsonResponseOf r)); reflexivity. }
  rewrite H. repeat split.
Qed.

Lemma acknowledged_success_disables_submit_witness :
  stateAfter exampleState
    (step exampleEndpoint exampleState
       (Submit (exampleEnv (Fulfilled exampleLocation)
                  (Fulfilled (exampleResponse 200 (Fulfilled JSON.Null))))))
  = initialState.
Proof.
  assert (Hu : truthy (imageUri exampleState)
               = Some (js "file:///cache/ImagePicker/photo.jpg"))
    by (vm_compute; reflexivity).
  assert (Hs : (200 <= status (exampleResponse 200 (Fulfilled JSON.Null)) <= 299)%N)
    by (simpl; lia).
  apply (acknowledged_success_disables_submit exampleEndpoint exampleState
           (exampleEnv (Fulfilled exampleLocation)
              (Fulfilled (exampleResponse 200 (Fulfilled JSON.Null))))
           Hu eq_refl eq_refl eq_refl Hs).
Defined.

Lemma submitForm_reads (endpoint : jsstring) (st st' : State) (env : SubmitEnv) :
  imageUri st' = imageUri st ->
  description st' = description st ->
  submitForm endpoint st' env = submitForm endpoint st env.
Proof.
  intros Hi Hd. unfold submitForm, tryBlock. rewrite Hi, Hd. reflexivity.
Qed.

(** X17: after a submission that failed (rejected POST, or status outside
    200..299), a new press on the submit button does exactly what it would
    have done before the failure: the retry posts the same photo and the
    same description. *)
Theorem retry_after_failure
    (endpoint : jsstring) (st : State) (env env' : SubmitEnv)
    (u : jsstring) (loc : LocationObject)
    (Hu : truthy (imageUri st) = Some u)
    (Hp : position env = Fulfilled loc)
    (Hf : isSubmitting st = false)
    (Hr : (exists e, response env = Rejected e)
          \/ (exists r, response env = Fulfilled r
                        /\ (status r < 200 \/ 299 < status r)%N)) :
  let st' := stateAfter st (step endpoint st (Submit env)) in
  step endpoint st' (Submit env') = step endpoint st (Submit env')
  /\ fetches (pressSubmit endpoint st' env')
     = fetches (pressSubmit endpoint st env').
Proof.
  intros st'.
  assert (H : imageUri st' = imageUri st /\ description st' = description st
              /\ isSubmitting st' = false).
  { subst st'. rewrite (press_ready endpoint st env Hu Hp Hf).
    destruct Hr as [[e ->] | (r & -> & Hs)].
    - repeat split.
    - apply not_ok_iff in Hs. unfold afterFetch. rewrite Hs. repeat split. }
  destruct H as (Hi & Hd & Hf').
  assert (Hrun : pressSubmit endpoint st' env' = pressSubmit endpoint st env').
  { unfold pressSubmit, submitDisabled. rewrite Hi, Hf, Hf'.
    rewrite (submitForm_reads endpoint st st' env' Hi Hd). reflexivity. }
  unfold step. rewrite Hrun. split; reflexivity.
Qed.

Lemma retry_after_failure_witness :
  fetches
    (pressSubmit exampleEndpoint
       (stateAfter exampleState
          (step exampleEndpoint exampleState
             (Submit (exampleEnv (Fulfilled exampleLocation)
                        (Rejected NonError)))))
       (exampleEnv (Fulfilled exampleLocation)
          (Fulfilled (exampleResponse 200 (Fulfilled JSON.Null)))))
  = fetches
      (pressSubmit exampleEndpoint exampleState
         (exampleEnv (Fulfilled exampleLocation)
            (Fulfilled (exampleResponse 200 (Fulfilled JSON.Null))))).
Proof.
  assert (Hu : truthy (imageUri exampleState)
               = Some (js "file:///cache/ImagePicker/photo.jpg"))
    by (vm_compute; reflexivity).
  apply (retry_after_failure exampleEndpoint exampleState
           (exampleEnv (Fulfilled exampleLocation) (Rejected NonError))
           (exampleEnv (Fulfilled exampleLocation)
              (Fulfilled (exampleResponse 200 (Fulfilled JSON.Null))))
           Hu eq_refl eq_refl).
  left. exists NonError. reflexivity.
Defined.

(** ** Instances *)

Lemma permissions_alert_iff_witness :
  alerts (requestPermissions (Fulfilled granted) (Fulfilled granted)
            (Fulfilled granted)) = [].
Proof.
  destruct (permissions_alert_iff granted granted granted) as (_ & _ & H & _).
  apply H. repeat split.
Defined.

Lemma at_most_one_post_witness :
  List.length
    (fetches (submitForm exampleEndpoint exampleState
                (exampleEnv (Fulfilled exampleLocation) (Rejected NonError))))
  = 1%nat.
Proof.
  destruct (at_most_one_post exampleEndpoint exampleState
              (exampleEnv (Fulfilled exampleLocation) (Rejected NonError)))
    as (_ & _ & H).
  apply H. exists (js "file:///cache/ImagePicker/photo.jpg"), exampleLocation.
  split; [vm_compute; reflexivity | reflexivity].
Defined.

Lemma legacy_takePicture_runs_witness :
  In GetCurrentPosition
    (events (takePicture
               (Fulfilled (Picked [ {| uri := js "file:///cache/photo.jpg" |} ]))
               (Fulfilled exampleLocation))).
Proof.
  destruct (legacy_takePicture_runs
              (Fulfilled (Picked [ {| uri := js "file:///cache/photo.jpg" |} ]))
              (Fulfilled exampleLocation) initialState) as (_ & _ & _ & H).
  apply H. eauto.
Defined.
